(** * A shallow embedding of [Website/app.py] (TradingAgents web backend)

    The Flask module proxies market data (yfinance) and a text-generation
    API.  We embed:
    - the Python values the handlers build (dicts, strings, float64 numbers);
    - Python's [round(x, 2)] and ['%.2f'] on IEEE binary64 numbers, through
      Rocq's primitive floats and their exact [SpecFloat] description;
    - the data frames returned by [Ticker.history] (rows of timestamped bars
      with a column set) and the parts of pandas the code calls;
    - the three series formatters, the decision handler and the module
      initialisation, in a small exception-and-trace monad whose trace
      records every outbound call. *)

From Stdlib Require Import ZArith List String Ascii Bool Lia.
From Stdlib Require Import Floats Sorted.
Import ListNotations.
Set Warnings "-register-all,-inexact-float".
Open Scope string_scope.
Open Scope Z_scope.

(* ------------------------------------------------------------------ *)
(** ** Python strings (ASCII) *)

Definition char_code (c : ascii) : Z := Z.of_nat (nat_of_ascii c).

(** [str.isspace] on ASCII: \t \n \v \f \r, the separators 0x1c-0x1f, and space. *)
Definition py_isspace (c : ascii) : bool :=
  let n := char_code c in
  ((9 <=? n) && (n <=? 13)) || ((28 <=? n) && (n <=? 32)).

Fixpoint lstrip (s : string) : string :=
  match s with
  | EmptyString => EmptyString
  | String c s' => if py_isspace c then lstrip s' else s
  end.

Definition rev_string (s : string) : string :=
  string_of_list_ascii (rev (list_ascii_of_string s)).

(** [str.strip()] *)
Definition py_strip (s : string) : string :=
  rev_string (lstrip (rev_string (lstrip s))).

(** [str.upper()] on ASCII letters. *)
Definition ascii_upper (c : ascii) : ascii :=
  let n := nat_of_ascii c in
  if (97 <=? n)%nat && (n <=? 122)%nat then ascii_of_nat (n - 32) else c.

Fixpoint py_upper (s : string) : string :=
  match s with
  | EmptyString => EmptyString
  | String c s' => String (ascii_upper c) (py_upper s')
  end.

Definition newline : ascii := ascii_of_nat 10.

(** [s.split('\n')]: always at least one piece. *)
Fixpoint split_nl (s : string) : list string :=
  match s with
  | EmptyString => [EmptyString]
  | String c s' =>
      match split_nl s' with
      | [] => [EmptyString]  (* unreachable: split_nl never returns [] *)
      | p :: ps =>
          if Ascii.eqb c newline then EmptyString :: p :: ps
          else String c p :: ps
      end
  end.

(** [s[:n]] *)
Definition py_prefix (n : nat) (s : string) : string := substring 0 n s.

(** Decimal rendering of integers, zero-padded to [w] digits. *)
Fixpoint digits_of_Z (fuel : nat) (n : Z) (acc : string) : string :=
  match fuel with
  | O => acc
  | S fuel' =>
      let acc' := String (ascii_of_nat (48 + Z.to_nat (n mod 10))) acc in
      if n <? 10 then acc' else digits_of_Z fuel' (n / 10) acc'
  end.

(** [str(z)]; the fuel (bit length) bounds the number of decimal digits. *)
Definition z_to_dec (z : Z) : string :=
  let n := Z.abs z in
  let ds := digits_of_Z (S (Z.to_nat (Z.log2 n))) n EmptyString in
  if z <? 0 then "-" ++ ds else ds.

Fixpoint pad_left (w : nat) (s : string) : string :=
  match w with
  | O => s
  | S w' => if (length s <? S w')%nat then "0" ++ pad_left w' s else s
  end.

Definition z_pad (w : nat) (z : Z) : string := pad_left w (z_to_dec z).

(* ------------------------------------------------------------------ *)
(** ** Python floats: [round(x, 2)] and ['%.2f']

    CPython rounds a float to [nd] decimals by computing the correctly
    rounded decimal string of its exact binary value (round-half-even on
    that exact value) and reading it back with correct rounding.  We do the
    same on the exact [SpecFloat] view of a primitive float. *)

(** Nearest integer to [n / d] ([n >= 0]), ties to even. *)
Definition div_round_half_even (n : Z) (d : positive) : Z :=
  let q := n / Zpos d in
  let r := n mod Zpos d in
  match Z.compare (2 * r) (Zpos d) with
  | Lt => q
  | Gt => q + 1
  | Eq => if Z.even q then q else q + 1
  end.

(** [|x| * 100] rounded half-even to an integer, for a finite nonzero [x]
    given as [m * 2^e]. *)
Definition scaled_cents (m : positive) (e : Z) : Z :=
  if 0 <=? e then Zpos m * 100 * 2 ^ e
  else div_round_half_even (Zpos m * 100) (Z.to_pos (2 ^ (- e))).

(** [round(x, 2)] *)
Definition py_round2 (x : float) : float :=
  match Prim2SF x with
  | S754_finite s m e =>
      match scaled_cents m e with
      | Zpos k =>
          SF2Prim (SFdiv prec emax (S754_finite s k 0) (S754_finite false 100 0))
      | _ => SF2Prim (S754_zero s)
      end
  | _ => x   (* zeros, infinities and NaN are returned unchanged *)
  end.

(** [format(x, '.2f')] *)
Definition fmt_2f (x : float) : string :=
  match Prim2SF x with
  | S754_nan => "nan"
  | S754_infinity s => if s then "-inf" else "inf"
  | S754_zero s => if s then "-0.00" else "0.00"
  | S754_finite s m e =>
      let k := scaled_cents m e in
      (if s then "-" else "") ++ z_to_dec (k / 100) ++ "." ++ z_pad 2 (k mod 100)
  end.

(** Float of a natural number (a row count). *)
Definition float_of_nat (n : nat) : float := of_uint63 (Uint63.of_Z (Z.of_nat n)).

(* ------------------------------------------------------------------ *)
(** ** Python values, dicts and exceptions *)

(** The JSON-able values the handlers build. *)
Inductive PyVal :=
| PStr (s : string)
| PFloat (f : float)
| PInt (z : Z)
| PList (l : list PyVal).

(** A dict literal, in insertion order. *)
Definition Dict := list (string * PyVal).

Definition dict_keys (d : Dict) : list string := map fst d.

(** An exception instance (all raised here derive from [Exception]):
    its class name and [str(e)]. *)
Record Exn := mkExn { exn_class : string; exn_msg : string }.

Definition NameError (name : string) : Exn :=
  mkExn "NameError" ("name '" ++ name ++ "' is not defined").

Definition KeyError (key : string) : Exn :=
  mkExn "KeyError" ("'" ++ key ++ "'").

(* ------------------------------------------------------------------ *)
(** ** Outbound calls and the Python computation monad *)

(** Every call that leaves the process. *)
Inductive Call :=
| CallHistory (ticker period interval : string)   (* yf.Ticker(t).history(...) *)
| CallInfo (ticker : string)                      (* yf.Ticker(t).info *)
| CallGenerate (model prompt : string).           (* GenerativeModel(m).generate_content(p) *)

(** A computation: from the trace of calls made so far to a result (an
    exception or a value) and the extended trace (most recent call first). *)
Definition Py (A : Type) : Type := list Call -> (Exn + A) * list Call.

Definition ret {A} (a : A) : Py A := fun tr => (inr a, tr).
Definition raise {A} (e : Exn) : Py A := fun tr => (inl e, tr).
Definition bind {A B} (m : Py A) (k : A -> Py B) : Py B :=
  fun tr => match m tr with
            | (inl e, tr') => (inl e, tr')
            | (inr a, tr') => k a tr'
            end.
(** Perform an outbound call whose outcome is [r]. *)
Definition outbound {A} (c : Call) (r : Exn + A) : Py A := fun tr => (r, c :: tr).

(** [try: body except Exception as e: handler(e)] *)
Definition try_except {A} (body : Py A) (handler : Exn -> Py A) : Py A :=
  fun tr => match body tr with
            | (inl e, tr') => handler e tr'
            | (inr a, tr') => (inr a, tr')
            end.

Notation "x <- m ;; k" := (bind m (fun x => k))
  (at level 61, m at next level, right associativity).

(* ------------------------------------------------------------------ *)
(** ** Dates, timestamps and [strftime] *)

Record Date := mkDate { year : Z; month : Z; day : Z }.

(** A bar's index timestamp, as a wall-clock time in the index's zone. *)
Record Timestamp := mkTs { ts_date : Date; ts_hour : Z; ts_minute : Z }.

Definition date_eqb (a b : Date) : bool :=
  (year a =? year b) && (month a =? month b) && (day a =? day b).

(** [a < b] on [datetime.date]. *)
Definition date_ltb (a b : Date) : bool :=
  (year a <? year b)
  || ((year a =? year b) && ((month a <? month b)
                              || ((month a =? month b) && (day a <? day b)))).

Definition is_leap (y : Z) : bool :=
  ((y mod 4 =? 0) && negb (y mod 100 =? 0)) || (y mod 400 =? 0).

Definition days_in_month (y m : Z) : Z :=
  if (m =? 2) then (if is_leap y then 29 else 28)
  else if (m =? 4) || (m =? 6) || (m =? 9) || (m =? 11) then 30
  else 31.

(** [d - timedelta(days=1)]; the clock's date is never 0001-01-01, the
    only date where the subtraction overflows. *)
Definition prev_day (d : Date) : Date :=
  if 1 <? day d then mkDate (year d) (month d) (day d - 1)
  else if 1 <? month d then mkDate (year d) (month d - 1) (days_in_month (year d) (month d - 1))
  else mkDate (year d - 1) 12 31.

Definition strftime_ymd (t : Timestamp) : string :=   (* '%Y-%m-%d' *)
  z_pad 4 (year (ts_date t)) ++ "-" ++ z_pad 2 (month (ts_date t)) ++ "-"
  ++ z_pad 2 (day (ts_date t)).

Definition strftime_hm (t : Timestamp) : string :=    (* '%H:%M' *)
  z_pad 2 (ts_hour t) ++ ":" ++ z_pad 2 (ts_minute t).

Definition strftime_ym (t : Timestamp) : string :=    (* '%Y-%m' *)
  z_pad 4 (year (ts_date t)) ++ "-" ++ z_pad 2 (month (ts_date t)).

(* ------------------------------------------------------------------ *)
(** ** Data frames returned by [Ticker.history] *)

(** One row: its index timestamp and its [Close] entry. *)
Record Bar := mkBar { bar_ts : Timestamp; bar_close : float }.

Definition bar_date (b : Bar) : Date := ts_date (bar_ts b).

(** A frame: its column labels and its rows in index order.  A row filter
    ([data[mask]]) keeps the columns. *)
Record Frame := mkFrame { columns : list string; rows : list Bar }.

Definition with_rows (f : Frame) (rs : list Bar) : Frame := mkFrame (columns f) rs.

(** [DataFrame.empty]: no rows or no columns. *)
Definition frame_empty (f : Frame) : bool :=
  match rows f, columns f with
  | [], _ | _, [] => true
  | _, _ => false
  end.

(** [df['Close']] as a list of its values. *)
Definition close_col (f : Frame) : Py (list float) :=
  if existsb (String.eqb "Close") (columns f) then ret (map bar_close (rows f))
  else raise (KeyError "Close").

(** [df.tail(n)] *)
Definition tail_n {A} (n : nat) (l : list A) : list A := skipn (List.length l - n) l.

(** numpy's pairwise summation of float64 ([pairwise_sum] in numpy's
    loops): a plain loop below 8 elements, eight accumulators up to the
    block size 128, and a split on a multiple of 8 above it. *)
Definition sum8 (r : list float) : float :=
  match r with
  | [r0; r1; r2; r3; r4; r5; r6; r7] =>
      (((r0 + r1) + (r2 + r3)) + ((r4 + r5) + (r6 + r7)))%float
  | _ => 0%float
  end.

Fixpoint chunks8 (fuel : nat) (l : list float) : list (list float) :=
  match fuel with
  | O => []
  | S fuel' => match l with [] => [] | _ => firstn 8 l :: chunks8 fuel' (skipn 8 l) end
  end.

Definition add8 (r c : list float) : list float := map (fun '(x, y) => (x + y)%float) (combine r c).

Fixpoint pairwise_sum_fuel (fuel : nat) (a : list float) : float :=
  let n := List.length a in
  if (n <? 8)%nat then fold_left (fun acc x => (acc + x)%float) a 0%float
  else if (n <=? 128)%nat then
    let m := (n - n mod 8)%nat in
    let blocks := chunks8 m (firstn m a) in
    let r := fold_left add8 (tl blocks) (hd [] blocks) in
    fold_left (fun acc x => (acc + x)%float) (skipn m a) (sum8 r)
  else
    match fuel with
    | O => 0%float
    | S fuel' =>
        let n2 := (n / 2 - (n / 2) mod 8)%nat in
        (pairwise_sum_fuel fuel' (firstn n2 a) + pairwise_sum_fuel fuel' (skipn n2 a))%float
    end.

Definition pairwise_sum (a : list float) : float := pairwise_sum_fuel (List.length a) a.

(** [np.add.reduce] on float64: the result starts from the identity 0.0
    and the whole array is summed pairwise into it (numpy uses the
    identity as the initial value of every non-object reduction). *)
Definition np_sum (a : list float) : float := (0 + pairwise_sum a)%float.

(** [Series.mean()] (pandas [nanmean], skipna): NaN entries are replaced by
    0 for the sum and left out of the count. *)
Definition pd_mean (xs : list float) : float :=
  let filled := map (fun x => if is_nan x then 0%float else x) xs in
  let count := List.length (filter (fun x => negb (is_nan x)) xs) in
  (np_sum filled / float_of_nat count)%float.

Definition last_opt {A} (l : list A) : option A :=
  match rev l with [] => None | x :: _ => Some x end.

(* ------------------------------------------------------------------ *)
(** ** The outside world *)

(** What the external collaborators answer: yfinance's history and info
    for a ticker, and the text-generation package's reply to
    [GenerativeModel(model).generate_content(prompt).text]. *)
Record World := mkWorld {
  yf_history : string -> string -> string -> Exn + Frame;
  yf_info : string -> Exn + (string -> option string);
  genai_generate : string -> string -> Exn + string
}.

(** [get_stock_data(ticker, period, interval)] *)
Definition get_stock_data (w : World) (ticker period interval : string) : Py (option Frame) :=
  try_except
    (data <- outbound (CallHistory ticker period interval) (yf_history w ticker period interval) ;;
     ret (Some data))
    (fun _ => ret None).   (* print(...); return None *)

(* ------------------------------------------------------------------ *)
(** ** The series formatters *)

Definition error_dict (msg : string) : Dict := [("error", PStr msg)].

Definition series_dict (ticker range : string) (labels : list string) (values : list float) : Dict :=
  [("ticker", PStr ticker); ("range", PStr range);
   ("labels", PList (map PStr labels)); ("values", PList (map PFloat values));
   ("count", PInt (Z.of_nat (List.length values)))].

(** [data[data.index.date < today]] *)
Definition daily_filtered (d : Frame) (today : Date) : Frame :=
  with_rows d (filter (fun b => date_ltb (bar_date b) today) (rows d)).

(** Lines 63-69: the bars of yesterday, or else those of the last bar's day. *)
Definition intraday_filtered (d : Frame) (today : Date) : Frame :=
  let yesterday := prev_day today in
  let filtered := with_rows d (filter (fun b => date_eqb (bar_date b) yesterday) (rows d)) in
  (* fallback: if market closed (weekends/holidays), use most recent available day *)
  let filtered :=
    if frame_empty filtered && negb (frame_empty d) then
      match last_opt (rows d) with
      | Some lb => with_rows d (filter (fun b => date_eqb (bar_date b) (bar_date lb)) (rows d))
      | None => filtered
      end
    else filtered in
  filtered.

(** The [try] block of [format_daily_data]; [today] is
    [datetime.utcnow().date()]. *)
Definition format_daily_body (w : World) (today : Date) (ticker : string) : Py Dict :=
  data <- get_stock_data w ticker "1mo" "1d" ;;
  match data with
  | None => ret (error_dict "No data available")
  | Some d =>
      if frame_empty d then ret (error_dict "No data available") else
      let filtered := daily_filtered d today in
      if frame_empty filtered then ret (error_dict "No historical data before today") else
      let recent := with_rows filtered (tail_n 30 (rows filtered)) in
      let labels := map (fun b => strftime_ymd (bar_ts b)) (rows recent) in
      closes <- close_col recent ;;
      let values := map py_round2 closes in
      ret (series_dict ticker "daily" labels values)
  end.

Definition format_daily_data (w : World) (today : Date) (ticker : string) : Py Dict :=
  try_except (format_daily_body w today ticker) (fun e => ret (error_dict (exn_msg e))).

Definition format_intraday_body (w : World) (today : Date) (ticker : string) : Py Dict :=
  data <- get_stock_data w ticker "2d" "30m" ;;
  match data with
  | None => ret (error_dict "No data available")
  | Some d =>
      if frame_empty d then ret (error_dict "No data available") else
      let filtered := intraday_filtered d today in
      if frame_empty filtered then ret (error_dict "No intraday data available") else
      let labels := map (fun b => strftime_hm (bar_ts b)) (rows filtered) in
      closes <- close_col filtered ;;
      let values := map py_round2 closes in
      ret (series_dict ticker "intraday" labels values)
  end.

Definition format_intraday_data (w : World) (today : Date) (ticker : string) : Py Dict :=
  try_except (format_intraday_body w today ticker) (fun e => ret (error_dict (exn_msg e))).

Definition format_monthly_body (w : World) (ticker : string) : Py Dict :=
  data <- get_stock_data w ticker "1mo" "1d" ;;
  match data with
  | None => ret (error_dict "No data available")
  | Some d =>
      if frame_empty d then ret (error_dict "No data available") else
      closes <- close_col d ;;
      let avg_close := py_round2 (pd_mean closes) in
      match last_opt (rows d) with
      | None => ret (error_dict "No data available")   (* unreachable: d has rows *)
      | Some lb =>
          let period_label := strftime_ym (bar_ts lb) in
          ret (series_dict ticker "monthly" [period_label] [avg_close])
      end
  end.

Definition format_monthly_data (w : World) (ticker : string) : Py Dict :=
  try_except (format_monthly_body w ticker) (fun e => ret (error_dict (exn_msg e))).

(* ------------------------------------------------------------------ *)
(** ** Module globals and initialisation *)

(** Names the module binds, in order: its imports (lines 1-6), then its
    top-level assignments and definitions.  No import binds [genai]. *)
Definition module_globals : list string :=
  ["Flask"; "jsonify"; "send_from_directory"; "CORS"; "yf"; "datetime";
   "timedelta"; "json"; "os"; "app"; "GEMINI_API_KEY"; "cache";
   "get_stock_data"; "format_daily_data"; "format_intraday_data";
   "format_monthly_data"; "get_daily"; "get_monthly"; "get_intraday";
   "get_info"; "get_decision"; "health"; "index"; "serve_static"].

(** The globals bound when line 14 runs. *)
Definition globals_at_configure : list string := firstn 11 module_globals.

Definition builtin_names : list string :=
  ["print"; "len"; "round"; "float"; "str"; "Exception"; "__name__"].

(** Looking up a global name: [NameError] when neither the module nor the
    builtins bind it. *)
Definition resolve_global (g : list string) (name : string) : Py unit :=
  if existsb (String.eqb name) (g ++ builtin_names) then ret tt
  else raise (NameError name).

(** Lines 12-14: read [GEMINI_API_KEY] and, when it is non-empty, call
    [genai.configure(api_key=...)]; the result is the configured key. *)
Definition module_init (environ : string -> option string) : Py string :=
  let key := match environ "GEMINI_API_KEY" with Some v => v | None => "" end in
  if negb (String.eqb key "") then
    _ <- resolve_global globals_at_configure "genai" ;;
    ret key
  else ret key.

(* ------------------------------------------------------------------ *)
(** ** The decision handler *)

(** An HTTP response: the jsonified dict and the status code. *)
Definition Response : Type := (Dict * Z)%type.

Definition decision_dict (ticker action reason : string) : Dict :=
  [("ticker", PStr ticker); ("action", PStr action); ("reason", PStr reason)].

Definition nl : string := String newline EmptyString.

Fixpoint join (sep : string) (l : list string) : string :=
  match l with
  | [] => ""
  | [x] => x
  | x :: rest => x ++ sep ++ join sep rest
  end.

(** The f-string prompt of lines 170-182; the list of recent prices is
    rendered as the [str] of a list of strings. *)
Definition build_prompt (ticker company : string) (current_price : float)
    (recent_prices : list float) : string :=
  "You are a trading advisor using reinforcement learning to analyze stock data." ++ nl
  ++ nl
  ++ "Ticker: " ++ ticker ++ nl
  ++ "Company: " ++ company ++ nl
  ++ "Current Price: $" ++ fmt_2f current_price ++ nl
  ++ "Recent 5-day closing prices: ["
  ++ join ", " (map (fun p => "'$" ++ fmt_2f p ++ "'") recent_prices) ++ "]" ++ nl
  ++ nl
  ++ "Based on this data, provide a trading decision. Respond with ONLY one word: BUY, SELL, or HOLD." ++ nl
  ++ "Then on a new line, provide a brief one-sentence reason (max 15 words)." ++ nl
  ++ nl
  ++ "Format:" ++ nl
  ++ "ACTION" ++ nl
  ++ "Reason here.".

Definition valid_actions : list string := ["BUY"; "SELL"; "HOLD"].

(** Lines 187-195: parse the model's reply into an action and a reason. *)
Definition parse_reply (text : string) : string * string :=
  let lines := split_nl (py_strip text) in
  let action := py_upper (py_strip (hd "" lines)) in
  let reason := match lines with
                | _ :: l1 :: _ => py_strip l1
                | _ => "AI analysis complete."
                end in
  if existsb (String.eqb action) valid_actions then (action, reason)
  else ("HOLD", "Unable to determine clear action; defaulting to HOLD.").

(** [info.get(k, default)] *)
Definition info_get (info : string -> option string) (k default : string) : string :=
  match info k with Some v => v | None => default end.

(** The [try] block of [get_decision] after [ticker = ticker.upper()];
    [g] are the module's global names and [key] is [GEMINI_API_KEY]. *)
Definition get_decision_body (g : list string) (w : World) (key ticker : string) : Py Response :=
  if String.eqb key "" then
    ret (decision_dict ticker "HOLD" "No Gemini API key configured. Using default HOLD action.", 200)
  else
    hist <- outbound (CallHistory ticker "5d" "1d") (yf_history w ticker "5d" "1d") ;;
    info <- outbound (CallInfo ticker) (yf_info w ticker) ;;
    if frame_empty hist then ret (error_dict "No data available", 400) else
    closes <- close_col hist ;;
    let recent_prices := tail_n 5 closes in
    let current_price := match last_opt recent_prices with Some p => p | None => 0%float end in
    let prompt := build_prompt ticker (info_get info "longName" ticker) current_price recent_prices in
    _ <- resolve_global g "genai" ;;     (* genai.GenerativeModel *)
    text <- outbound (CallGenerate "gemini-pro" prompt) (genai_generate w "gemini-pro" prompt) ;;
    let '(action, reason) := parse_reply text in
    ret (decision_dict ticker action reason, 200).

(** [get_decision(ticker)]: [ticker.upper()] cannot raise, so the handler
    sees the upper-cased ticker. *)
Definition get_decision (g : list string) (w : World) (key ticker_raw : string) : Py Response :=
  let ticker := py_upper ticker_raw in
  try_except (get_decision_body g w key ticker)
    (fun e => ret (decision_dict ticker "HOLD" ("Error during analysis: " ++ py_prefix 50 (exn_msg e)), 200)).

(** The route [/api/<ticker>/decision] in a process whose environment is
    [environ]: the module is initialised first, then the handler runs with
    the module's globals. *)
Definition serve_decision (environ : string -> option string) (w : World) (ticker : string)
  : Py Response :=
  key <- module_init environ ;;
  get_decision module_globals w key ticker.

(** Lookup in a dict. *)
Definition dict_get (d : Dict) (k : string) : option PyVal :=
  match find (fun kv => String.eqb (fst kv) k) d with
  | Some (_, v) => Some v
  | None => None
  end.

(** The two result shapes of a formatter. *)
Definition series_shape (d : Dict) : Prop :=
  exists ticker range labels values,
    d = [("ticker", PStr ticker); ("range", PStr range); ("labels", PList labels);
         ("values", PList values); ("count", PInt (Z.of_nat (List.length values)))]
    /\ List.length labels = List.length values.

Definition error_shape (d : Dict) : Prop := exists msg, d = [("error", PStr msg)].

(** Bars in chronological order of their timestamps. *)
Definition ts_leb (a b : Timestamp) : bool :=
  date_ltb (ts_date a) (ts_date b)
  || (date_eqb (ts_date a) (ts_date b)
      && ((ts_hour a <? ts_hour b) || ((ts_hour a =? ts_hour b) && (ts_minute a <=? ts_minute b)))).

Definition chronological (l : list Bar) : Prop :=
  StronglySorted (fun a b => ts_leb (bar_ts a) (bar_ts b) = true) l.

(* ------------------------------------------------------------------ *)
(** ** The HTTP routes *)

(** [/api/<ticker>/daily]: [jsonify(format_daily_data(ticker.upper()))],
    sent with Flask's default status 200. *)
Definition get_daily (w : World) (today : Date) (ticker : string) : Py Response :=
  let ticker := py_upper ticker in
  d <- format_daily_data w today ticker ;;
  ret (d, 200).

(** [/api/<ticker>/monthly] *)
Definition get_monthly (w : World) (ticker : string) : Py Response :=
  let ticker := py_upper ticker in
  d <- format_monthly_data w ticker ;;
  ret (d, 200).

(** [/api/<ticker>/intraday] *)
Definition get_intraday (w : World) (today : Date) (ticker : string) : Py Response :=
  let ticker := py_upper ticker in
  d <- format_intraday_data w today ticker ;;
  ret (d, 200).

(** yfinance's [Ticker(t).info] as [get_info] reads it: a dict of mixed
    values (names are strings, prices numbers), or the exception raised. *)
Definition InfoSource : Type := string -> Exn + (string -> option PyVal).

(** [info.get(k, 'N/A')] *)
Definition info_field (info : string -> option PyVal) (k : string) : PyVal :=
  match info k with Some v => v | None => PStr "N/A" end.

(** [/api/<ticker>/info] *)
Definition get_info (src : InfoSource) (ticker : string) : Py Response :=
  try_except
    (let ticker := py_upper ticker in
     info <- outbound (CallInfo ticker) (src ticker) ;;
     ret ([("ticker", PStr ticker);
           ("name", info_field info "longName");
           ("price", info_field info "currentPrice");
           ("change", info_field info "regularMarketChange");
           ("changePercent", info_field info "regularMarketChangePercent")], 200))
    (fun e => ret (error_dict (exn_msg e), 400)).

(** A calendar date that exists. *)
Definition valid_date (d : Date) : Prop :=
  1 <= month d <= 12 /\ 1 <= day d <= days_in_month (year d) (month d).

(** What a series route may answer for the (upper-cased) ticker [t]: an
    error dict, or the success dict of range [r] for [t]. *)
Definition route_body (t r : string) (d : Dict) : Prop :=
  (exists msg, d = error_dict msg) \/
  (exists labels values, d = series_dict t r labels values /\ List.length labels = List.length values).

(* ------------------------------------------------------------------ *)
(** ** Concrete inputs *)

Definition bar_at (y m d h mi : Z) (c : float) : Bar := mkBar (mkTs (mkDate y m d) h mi) c.

Definition ohlcv : list string := ["Open"; "High"; "Low"; "Close"; "Volume"].

(** A one-month daily series with the two closes 100.004 and 100.006. *)
Definition two_bar_frame : Frame :=
  mkFrame ["Open"; "High"; "Low"; "Close"; "Volume"]
    [mkBar (mkTs (mkDate 2025 3 3) 0 0) 100.004%float;
     mkBar (mkTs (mkDate 2025 3 4) 0 0) 100.006%float].

Definition two_bar_world : World :=
  mkWorld (fun _ _ _ => inr two_bar_frame) (fun _ => inr (fun _ => None)) (fun _ _ => inr "HOLD").

(** Daily bars up to 2025-03-05, the last one being that day's. *)
Definition daily_frame : Frame :=
  mkFrame ohlcv [bar_at 2025 3 3 0 0 101.5%float; bar_at 2025 3 4 0 0 102.25%float;
                 bar_at 2025 3 5 0 0 99.875%float].

(** Half-hour bars of Saturday 2025-03-08 only. *)
Definition saturday_frame : Frame :=
  mkFrame ohlcv [bar_at 2025 3 8 9 30 50.125%float; bar_at 2025 3 8 10 0 50.5%float].

(** Only a bar dated 2025-03-05. *)
Definition today_only_frame : Frame := mkFrame ohlcv [bar_at 2025 3 5 0 0 99.875%float].

Definition demo_info (k : string) : option string :=
  if String.eqb k "longName" then Some "Demo Corp" else None.

(** A provider answering with [daily_frame] or [saturday_frame], and a
    model answering SELL. *)
Definition demo_world : World :=
  mkWorld (fun _ _ interval => if String.eqb interval "30m" then inr saturday_frame
                               else inr daily_frame)
          (fun _ => inr demo_info)
          (fun _ _ => inr ("SELL" ++ nl ++ "Weak earnings outlook")).

Definition today_only_world : World :=
  mkWorld (fun _ _ _ => inr today_only_frame) (fun _ => inr demo_info) (fun _ _ => inr "HOLD").

Definition connection_error : Exn :=
  mkExn "ConnectionError"
    "HTTPSConnectionPool(host='query2.finance.yahoo.com', port=443): Max retries exceeded".

(** A provider that cannot be reached. *)
Definition offline_world : World :=
  mkWorld (fun _ _ _ => inl connection_error) (fun _ => inl connection_error)
          (fun _ _ => inl connection_error).

(** A provider whose frame lacks a [Close] column. *)
Definition no_close_world : World :=
  mkWorld (fun _ _ _ => inr (mkFrame ["Open"] [bar_at 2025 3 3 0 0 101.5%float]))
          (fun _ => inr demo_info) (fun _ _ => inr "HOLD").

Definition key_env (k : string) : option string :=
  if String.eqb k "GEMINI_API_KEY" then Some "abc123" else None.

Definition no_key_env (_ : string) : option string := None.

(** A reply that opens with a blank line. *)
Definition reply_leading_blank : string := nl ++ "BUY" ++ nl ++ "Strong upward momentum".

(** Info for AAPL with a name and a price but no change fields; other
    tickers cannot be looked up. *)
Definition apple_info (k : string) : option PyVal :=
  if String.eqb k "longName" then Some (PStr "Apple Inc.")
  else if String.eqb k "currentPrice" then Some (PFloat 189.5%float) else None.

Definition apple_info_src : InfoSource :=
  fun t => if String.eqb t "AAPL" then inr apple_info else inl connection_error.

(** Half-hour bars of Monday 2025-03-10 and of the morning of 2025-03-11. *)
Definition monday_tuesday_frame : Frame :=
  mkFrame ohlcv [bar_at 2025 3 10 15 0 41.25%float; bar_at 2025 3 10 15 30 41.5%float;
                 bar_at 2025 3 11 9 30 40.75%float].

Definition monday_tuesday_world : World :=
  mkWorld (fun _ _ _ => inr monday_tuesday_frame) (fun _ => inr demo_info) (fun _ _ => inr "HOLD").

(** Two daily bars whose closes are missing (NaN). *)
Definition nan_frame : Frame :=
  mkFrame ohlcv [bar_at 2025 3 3 0 0 nan; bar_at 2025 3 4 0 0 nan].

Definition nan_world : World :=
  mkWorld (fun _ _ _ => inr nan_frame) (fun _ => inr demo_info) (fun _ _ => inr "HOLD").

(** A provider with no bars for the ticker, whose info lookup works. *)
Definition empty_history_world : World :=
  mkWorld (fun _ _ _ => inr (mkFrame ohlcv [])) (fun _ => inr demo_info) (fun _ _ => inr "HOLD").

(** A provider whose history works and whose info lookup fails. *)
Definition info_down_world : World :=
  mkWorld (fun _ _ _ => inr daily_frame) (fun _ => inl connection_error) (fun _ _ => inr "BUY").

(* ================================================================== *)
(** * Properties *)

(** ** Running the building blocks *)

Lemma get_stock_data_run w t p i tr :
  get_stock_data w t p i tr =
  (inr (match yf_history w t p i with inl _ => None | inr d => Some d end),
   CallHistory t p i :: tr).
Proof. unfold get_stock_data, try_except, bind, outbound, ret. now destruct (yf_history w t p i). Qed.

Lemma close_col_run f tr :
  close_col f tr =
  (if existsb (String.eqb "Close") (columns f) then inr (map bar_close (rows f))
   else inl (KeyError "Close"), tr).
Proof. unfold close_col, ret, raise. now destruct (existsb (String.eqb "Close") (columns f)). Qed.

Lemma formatter_try_run (body : Py Dict) tr :
  try_except body (fun e => ret (error_dict (exn_msg e))) tr =
  match body tr with
  | (inl e, tr') => (inr (error_dict (exn_msg e)), tr')
  | (inr d, tr') => (inr d, tr')
  end.
Proof. unfold try_except, ret. now destruct (body tr) as [[e|d] tr']. Qed.

Lemma series_dict_shape t r labels values :
  List.length labels = List.length values -> series_shape (series_dict t r labels values).
Proof.
  intros H. exists t, r, (map PStr labels), (map PFloat values). unfold series_dict.
  rewrite !length_map. auto.
Qed.

Lemma error_dict_shape m : error_shape (error_dict m).
Proof. now exists m. Qed.

Create HintDb py.
#[local] Hint Resolve error_dict_shape : py.

Ltac run_py :=
  repeat first
    [ progress unfold bind, ret, raise in *
    | rewrite get_stock_data_run in *
    | rewrite close_col_run in * ].

Ltac case_close :=
  rewrite ?close_col_run;
  match goal with
  | |- context [existsb (String.eqb "Close") ?l] => destruct (existsb (String.eqb "Close") l) eqn:?
  end.

Lemma daily_body_shape w today t tr d tr' :
  format_daily_body w today t tr = (inr d, tr') -> series_shape d \/ error_shape d.
Proof.
  unfold format_daily_body. run_py.
  destruct (yf_history w t "1mo" "1d") as [e|fr]; [intros H; inversion H; subst; auto with py|].
  destruct (frame_empty fr); [intros H; inversion H; subst; auto with py|].
  destruct (frame_empty (daily_filtered fr today)); [intros H; inversion H; subst; auto with py|].
  case_close; intros H; inversion H; subst.
  left. apply series_dict_shape. now rewrite !length_map.
Qed.

Lemma intraday_body_shape w today t tr d tr' :
  format_intraday_body w today t tr = (inr d, tr') -> series_shape d \/ error_shape d.
Proof.
  unfold format_intraday_body. run_py.
  destruct (yf_history w t "2d" "30m") as [e|fr]; [intros H; inversion H; subst; auto with py|].
  destruct (frame_empty fr); [intros H; inversion H; subst; auto with py|].
  destruct (frame_empty (intraday_filtered fr today)); [intros H; inversion H; subst; auto with py|].
  case_close; intros H; inversion H; subst.
  left. apply series_dict_shape. now rewrite !length_map.
Qed.

Lemma monthly_body_shape w t tr d tr' :
  format_monthly_body w t tr = (inr d, tr') -> series_shape d \/ error_shape d.
Proof.
  unfold format_monthly_body. run_py.
  destruct (yf_history w t "1mo" "1d") as [e|fr]; [intros H; inversion H; subst; auto with py|].
  destruct (frame_empty fr); [intros H; inversion H; subst; auto with py|].
  case_close; [|intros H; inversion H].
  destruct (last_opt (rows fr)); intros H; inversion H; subst; auto with py.
  left. now apply series_dict_shape.
Qed.

(** A formatter wraps its body in [except Exception as e: return {"error": str(e)}]. *)
Lemma formatter_shape (body : Py Dict) tr :
  (forall tr0 d tr', body tr0 = (inr d, tr') -> series_shape d \/ error_shape d) ->
  exists d tr', try_except body (fun e => ret (error_dict (exn_msg e))) tr = (inr d, tr')
                /\ (series_shape d \/ error_shape d).
Proof.
  intros Hb. rewrite formatter_try_run.
  destruct (body tr) as [[e|d] tr'] eqn:E.
  - exists (error_dict (exn_msg e)), tr'. auto with py.
  - exists d, tr'. split; [reflexivity | eapply Hb; eauto].
Qed.

Lemma series_not_error d : series_shape d -> ~ In "error" (dict_keys d).
Proof.
  intros (tk & r & l & v & -> & _). simpl. intuition discriminate.
Qed.

Lemma error_keys d : error_shape d -> dict_keys d = ["error"].
Proof. now intros [m ->]. Qed.

(** One of the two shapes, never a mixture. *)
Definition formatter_result (d : Dict) : Prop :=
  (series_shape d /\ ~ In "error" (dict_keys d)) \/ (error_shape d /\ dict_keys d = ["error"]).

Lemma formatter_result_of d : series_shape d \/ error_shape d -> formatter_result d.
Proof.
  intros [H|H]; [left; split; auto using series_not_error | right; split; auto using error_keys].
Qed.

(** C1: each of the three formatters returns (and does not raise) either
    the success dict [{ticker, range, labels, values, count}] with
    [len(labels) == len(values) == count], or the dict [{error}] alone. *)
Theorem formatter_output_shapes : forall (w : World) (today : Date) (ticker : string) (tr : list Call),
  (exists d tr', format_daily_data w today ticker tr = (inr d, tr') /\ formatter_result d) /\
  (exists d tr', format_intraday_data w today ticker tr = (inr d, tr') /\ formatter_result d) /\
  (exists d tr', format_monthly_data w ticker tr = (inr d, tr') /\ formatter_result d).
Proof.
  intros w today ticker tr.
  split; [|split].
  - destruct (formatter_shape (format_daily_body w today ticker) tr) as (d & tr' & H & S);
      [intros; eapply daily_body_shape; eauto|].
    exists d, tr'. auto using formatter_result_of.
  - destruct (formatter_shape (format_intraday_body w today ticker) tr) as (d & tr' & H & S);
      [intros; eapply intraday_body_shape; eauto|].
    exists d, tr'. auto using formatter_result_of.
  - destruct (formatter_shape (format_monthly_body w ticker) tr) as (d & tr' & H & S);
      [intros; eapply monthly_body_shape; eauto|].
    exists d, tr'. auto using formatter_result_of.
Qed.

Lemma formatter_total (body : Py Dict) tr :
  (exists d, fst (try_except body (fun e => ret (error_dict (exn_msg e))) tr) = inr d) /\
  (forall e, fst (body tr) = inl e ->
             fst (try_except body (fun e => ret (error_dict (exn_msg e))) tr) = inr (error_dict (exn_msg e))).
Proof.
  rewrite formatter_try_run. destruct (body tr) as [[ex|d] tr']; simpl.
  - split; [eauto | now intros ? [= <-]].
  - split; [eauto | discriminate].
Qed.

(** C9: no formatter raises.  An exception raised in a formatter's body
    comes back as [{"error": str(e)}]; an exception raised by the fetch is
    already absorbed by [get_stock_data] and comes back as
    [{"error": "No data available"}]. *)
Theorem formatters_never_raise : forall (w : World) (today : Date) (ticker : string) (tr : list Call),
  (exists d, fst (format_daily_data w today ticker tr) = inr d) /\
  (exists d, fst (format_intraday_data w today ticker tr) = inr d) /\
  (exists d, fst (format_monthly_data w ticker tr) = inr d) /\
  (forall e, fst (format_daily_body w today ticker tr) = inl e ->
     fst (format_daily_data w today ticker tr) = inr (error_dict (exn_msg e))) /\
  (forall e, fst (format_intraday_body w today ticker tr) = inl e ->
     fst (format_intraday_data w today ticker tr) = inr (error_dict (exn_msg e))) /\
  (forall e, fst (format_monthly_body w ticker tr) = inl e ->
     fst (format_monthly_data w ticker tr) = inr (error_dict (exn_msg e))) /\
  (forall e, yf_history w ticker "1mo" "1d" = inl e ->
     fst (format_daily_data w today ticker tr) = inr (error_dict "No data available") /\
     fst (format_monthly_data w ticker tr) = inr (error_dict "No data available")) /\
  (forall e, yf_history w ticker "2d" "30m" = inl e ->
     fst (format_intraday_data w today ticker tr) = inr (error_dict "No data available")).
Proof.
  intros w today ticker tr.
  destruct (formatter_total (format_daily_body w today ticker) tr) as [D1 D2].
  destruct (formatter_total (format_intraday_body w today ticker) tr) as [I1 I2].
  destruct (formatter_total (format_monthly_body w ticker) tr) as [M1 M2].
  repeat split; auto.
  all: intros; unfold format_daily_data, format_daily_body, format_monthly_data,
         format_monthly_body, format_intraday_data, format_intraday_body;
    rewrite formatter_try_run; run_py;
    match goal with H : yf_history _ _ _ _ = inl _ |- _ => now rewrite H end.
Qed.

(** ** Dates, frames and lists *)

Lemma date_ltb_irrefl a : date_ltb a a = false.
Proof. unfold date_ltb. now rewrite !Z.ltb_irrefl, !Z.eqb_refl. Qed.

Lemma date_eqb_eq a b : date_eqb a b = true <-> a = b.
Proof.
  destruct a as [ya ma da], b as [yb mb db]. unfold date_eqb; simpl.
  rewrite !andb_true_iff, !Z.eqb_eq. split.
  - now intros [[-> ->] ->].
  - now intros [= -> -> ->].
Qed.

Lemma date_eqb_refl a : date_eqb a a = true.
Proof. now apply date_eqb_eq. Qed.

Lemma frame_empty_with_rows d rs :
  frame_empty d = false -> frame_empty (with_rows d rs) = match rs with [] => true | _ => false end.
Proof.
  unfold frame_empty, with_rows; simpl.
  destruct (rows d), (columns d), rs; easy.
Qed.

Lemma frame_empty_rows d : frame_empty d = false -> rows d <> [].
Proof. unfold frame_empty. now destruct (rows d). Qed.

Lemma close_present cols : In "Close" cols -> existsb (String.eqb "Close") cols = true.
Proof.
  intros H. apply existsb_exists. exists "Close". now rewrite String.eqb_refl.
Qed.

Lemma last_opt_in {A} (l : list A) x : last_opt l = Some x -> In x l.
Proof.
  unfold last_opt. intros H. apply in_rev.
  destruct (rev l); [discriminate | injection H as ->; now left].
Qed.

Lemma last_opt_some {A} (l : list A) : l <> [] -> exists x, last_opt l = Some x.
Proof.
  unfold last_opt. intros H. destruct (rev l) eqn:E; eauto.
  exfalso. apply H. rewrite <- (rev_involutive l), E. reflexivity.
Qed.

Lemma tail_n_suffix {A} n (l : list A) : exists pre, l = (pre ++ tail_n n l)%list.
Proof.
  exists (firstn (List.length l - n) l). unfold tail_n. now rewrite firstn_skipn.
Qed.

Lemma tail_n_length {A} n (l : list A) : List.length (tail_n n l) = Nat.min n (List.length l).
Proof. unfold tail_n. rewrite length_skipn. lia. Qed.

Lemma tail_n_incl {A} n (l : list A) x : In x (tail_n n l) -> In x l.
Proof.
  destruct (tail_n_suffix n l) as [pre E]. intros H. rewrite E. apply in_or_app. now right.
Qed.

Lemma filter_nil_iff {A} (f : A -> bool) l : filter f l = [] <-> forall x, In x l -> f x = false.
Proof.
  induction l as [|a l IH]; simpl; [intuition|].
  destruct (f a) eqn:Ea; split.
  - discriminate.
  - intros H. now rewrite (H a (or_introl eq_refl)) in Ea.
  - intros H x [<-|Hx]; [assumption | now apply IH].
  - intros H. apply IH. auto.
Qed.

Section Sortedness.
Variable R : Bar -> Bar -> Prop.

Lemma sorted_filter (f : Bar -> bool) l :
  StronglySorted R l -> StronglySorted R (filter f l).
Proof.
  induction l as [|a l IH]; simpl; intros H; [constructor|].
  apply StronglySorted_inv in H as [Hl Ha].
  destruct (f a); [constructor|]; auto.
  rewrite Forall_forall in *. intros x Hx. apply filter_In in Hx. now apply Ha.
Qed.

Lemma sorted_skipn n l : StronglySorted R l -> StronglySorted R (skipn n l).
Proof.
  revert l. induction n as [|n IH]; intros [|a l] H; simpl; auto.
  apply StronglySorted_inv in H as [Hl _]. auto.
Qed.
End Sortedness.

(** [intraday_filtered] never comes back empty for a non-empty frame. *)
Lemma intraday_filtered_nonempty d today :
  frame_empty d = false -> frame_empty (intraday_filtered d today) = false.
Proof.
  intros Hd. unfold intraday_filtered.
  rewrite (frame_empty_with_rows d) by exact Hd.
  destruct (filter (fun b => date_eqb (bar_date b) (prev_day today)) (rows d)) eqn:E;
    [|simpl; now rewrite frame_empty_with_rows].
  rewrite Hd. simpl.
  destruct (last_opt_some (rows d) (frame_empty_rows d Hd)) as [lb Hlb]. rewrite Hlb.
  rewrite (frame_empty_with_rows d) by exact Hd.
  destruct (filter (fun b => date_eqb (bar_date b) (bar_date lb)) (rows d)) eqn:F; [|reflexivity].
  exfalso. apply filter_nil_iff with (x := lb) in F.
  - now rewrite date_eqb_refl in F.
  - now apply last_opt_in.
Qed.

(** ** The daily formatter *)

(** C6: [format_daily_data] drops every bar dated today (UTC) or later,
    errors when nothing is left, and otherwise returns the last (at most)
    30 remaining bars in their original order, labelled [YYYY-MM-DD] with
    their closes rounded to 2 decimals; when the provider's bars are in
    chronological order, so are the returned ones. *)
Theorem daily_drops_today_keeps_last_30 :
  forall (w : World) (today : Date) (ticker : string) (tr : list Call) (fr : Frame),
  yf_history w ticker "1mo" "1d" = inr fr ->
  frame_empty fr = false ->
  let kept := filter (fun b => date_ltb (bar_date b) today) (rows fr) in
  (kept = [] ->
     fst (format_daily_data w today ticker tr) = inr (error_dict "No historical data before today")) /\
  (kept <> [] -> In "Close" (columns fr) ->
     let recent := tail_n 30 kept in
     fst (format_daily_data w today ticker tr)
       = inr (series_dict ticker "daily" (map (fun b => strftime_ymd (bar_ts b)) recent)
                                         (map (fun b => py_round2 (bar_close b)) recent))
     /\ List.length recent = Nat.min 30 (List.length kept)
     /\ (exists pre, kept = (pre ++ recent)%list)
     /\ (forall b, In b recent -> In b (rows fr) /\ bar_date b <> today)
     /\ (chronological (rows fr) -> chronological recent)).
Proof.
  intros w today ticker tr fr Hh He kept.
  unfold format_daily_data. rewrite formatter_try_run. unfold format_daily_body. run_py.
  rewrite Hh, He. unfold daily_filtered.
  rewrite (frame_empty_with_rows fr) by exact He. fold kept.
  split.
  - intros ->. reflexivity.
  - intros Hk Hc.
    replace (match kept with [] => true | _ :: _ => false end) with false
      by (destruct kept; [contradiction | reflexivity]).
    rewrite close_col_run. cbn [with_rows rows columns].
    rewrite (close_present _ Hc). cbn [fst].
    split; [|split; [|split; [|split]]].
    + now rewrite map_map.
    + apply tail_n_length.
    + apply tail_n_suffix.
    + intros b Hb. apply tail_n_incl in Hb. unfold kept in Hb.
      apply filter_In in Hb as [Hin Hlt]. split; [assumption|].
      intros Heq. rewrite Heq, date_ltb_irrefl in Hlt. discriminate.
    + intros Hs. unfold tail_n. apply sorted_skipn. now apply sorted_filter.
Qed.

(** ** The intraday formatter *)

Lemma intraday_run w today ticker tr fr :
  yf_history w ticker "2d" "30m" = inr fr -> frame_empty fr = false ->
  In "Close" (columns fr) ->
  let sel := rows (intraday_filtered fr today) in
  fst (format_intraday_data w today ticker tr)
  = inr (series_dict ticker "intraday" (map (fun b => strftime_hm (bar_ts b)) sel)
                                       (map (fun b => py_round2 (bar_close b)) sel)).
Proof.
  intros Hh He Hc sel.
  unfold format_intraday_data. rewrite formatter_try_run. unfold format_intraday_body. run_py.
  rewrite Hh, He, (intraday_filtered_nonempty fr today He), close_col_run.
  assert (Hcols : columns (intraday_filtered fr today) = columns fr).
  { unfold intraday_filtered.
    destruct (frame_empty _ && _); [destruct (last_opt _)|]; reflexivity. }
  rewrite Hcols, (close_present _ Hc). cbn [fst]. now rewrite map_map.
Qed.

(** C7: when no bar of a non-empty intraday series is dated UTC-today
    minus one day, [format_intraday_data] returns the bars dated like the
    last bar, and succeeds.  More generally, for a series with a [Close]
    column the formatter errors only when the series is empty, and its
    "No intraday data available" result is never produced. *)
Theorem intraday_falls_back_to_last_day :
  (forall (w : World) (today : Date) (ticker : string) (tr : list Call) (fr : Frame),
     yf_history w ticker "2d" "30m" = inr fr ->
     frame_empty fr = false ->
     In "Close" (columns fr) ->
     (forall b, In b (rows fr) -> bar_date b <> prev_day today) ->
     exists lb, last_opt (rows fr) = Some lb /\
       let sel := filter (fun b => date_eqb (bar_date b) (bar_date lb)) (rows fr) in
       sel <> [] /\
       fst (format_intraday_data w today ticker tr)
       = inr (series_dict ticker "intraday" (map (fun b => strftime_hm (bar_ts b)) sel)
                                            (map (fun b => py_round2 (bar_close b)) sel))) /\
  (forall (w : World) (today : Date) (ticker : string) (tr : list Call) (fr : Frame) (msg : string),
     yf_history w ticker "2d" "30m" = inr fr ->
     In "Close" (columns fr) ->
     fst (format_intraday_data w today ticker tr) = inr (error_dict msg) ->
     frame_empty fr = true /\ msg = "No data available") /\
  (forall (w : World) (today : Date) (ticker : string) (tr : list Call),
     fst (format_intraday_data w today ticker tr) <> inr (error_dict "No intraday data available")).
Proof.
  split; [|split].
  - intros w today ticker tr fr Hh He Hc Hno.
    destruct (last_opt_some (rows fr) (frame_empty_rows fr He)) as [lb Hlb].
    exists lb. split; [exact Hlb|]. intros sel.
    assert (Hsel : sel <> []).
    { intros E. apply filter_nil_iff with (x := lb) in E.
      - now rewrite date_eqb_refl in E.
      - now apply last_opt_in. }
    split; [exact Hsel|].
    rewrite (intraday_run w today ticker tr fr Hh He Hc).
    assert (E : rows (intraday_filtered fr today) = sel).
    { unfold intraday_filtered.
      rewrite (proj2 (filter_nil_iff _ _)).
      - rewrite frame_empty_with_rows by exact He. rewrite He, Hlb. reflexivity.
      - intros b Hb. destruct (date_eqb _ _) eqn:Eb; [|reflexivity].
        apply date_eqb_eq in Eb. now destruct (Hno b Hb). }
    now rewrite E.
  - intros w today ticker tr fr msg Hh Hc Hr.
    destruct (frame_empty fr) eqn:He.
    + split; [reflexivity|].
      revert Hr. unfold format_intraday_data. rewrite formatter_try_run.
      unfold format_intraday_body. run_py. rewrite Hh, He. simpl. unfold error_dict. congruence.
    + rewrite (intraday_run w today ticker tr fr Hh He Hc) in Hr. discriminate.
  - intros w today ticker tr.
    unfold format_intraday_data. rewrite formatter_try_run. unfold format_intraday_body. run_py.
    unfold error_dict, series_dict.
    destruct (yf_history w ticker "2d" "30m") as [e|fr]; [simpl; congruence|].
    destruct (frame_empty fr) eqn:He; [simpl; congruence|].
    rewrite (intraday_filtered_nonempty fr today He). case_close; simpl; congruence.
Qed.

(** ** The monthly formatter *)

(** C8 (as the code computes it): for a non-empty series,
    [format_monthly_data] returns exactly one label/value pair: the label is
    the [YYYY-MM] month of the last bar, the value is Python's
    [round(_, 2)] of the pandas float64 mean of the closes. *)
Theorem monthly_single_rounded_mean :
  forall (w : World) (ticker : string) (tr : list Call) (fr : Frame),
  yf_history w ticker "1mo" "1d" = inr fr ->
  frame_empty fr = false ->
  In "Close" (columns fr) ->
  exists lb, last_opt (rows fr) = Some lb /\
    fst (format_monthly_data w ticker tr)
    = inr (series_dict ticker "monthly" [strftime_ym (bar_ts lb)]
                                        [py_round2 (pd_mean (map bar_close (rows fr)))]).
Proof.
  intros w ticker tr fr Hh He Hc.
  destruct (last_opt_some (rows fr) (frame_empty_rows fr He)) as [lb Hlb].
  exists lb. split; [exact Hlb|].
  unfold format_monthly_data. rewrite formatter_try_run. unfold format_monthly_body. run_py.
  rewrite Hh, He, close_col_run, (close_present _ Hc). cbn [fst]. now rewrite Hlb.
Qed.

(** C8 fails as stated: the float64 mean of 100.004 and 100.006 is
    100.00499999999999545..., which [round(_, 2)] takes to 100.0, so the
    returned value is 100.0 and not 100.01. *)
Lemma monthly_two_closes_round_down :
  fst (format_monthly_data two_bar_world "SPY" [])
    = inr (series_dict "SPY" "monthly" ["2025-03"] [100.0%float]) /\
  fst (format_monthly_data two_bar_world "SPY" [])
    <> inr (series_dict "SPY" "monthly" ["2025-03"] [100.01%float]).
Proof.
  assert (E : fst (format_monthly_data two_bar_world "SPY" [])
              = inr (series_dict "SPY" "monthly" ["2025-03"] [100.0%float])) by (vm_compute; reflexivity).
  split; [exact E|]. rewrite E. intros H.
  apply (f_equal (fun r : Exn + Dict =>
                    match r with
                    | inr d => match dict_get d "values" with
                               | Some (PList [PFloat x]) => PrimFloat.eqb x 100.01%float
                               | _ => false
                               end
                    | inl _ => false
                    end)) in H.
  vm_compute in H. discriminate.
Qed.

(** ** Error messages of the formatters *)

(** C10: an empty-after-filter result (daily: "No historical data before
    today"; intraday: "No intraday data available") carries a message other
    than the "No data available" of a missing or empty series; all are the
    one-field dict [{"error": msg}]. *)
Theorem empty_after_filter_message_distinct :
  forall (w : World) (today : Date) (ticker : string) (tr : list Call),
  "No historical data before today" <> "No data available" /\
  "No intraday data available" <> "No data available" /\
  ((exists e, yf_history w ticker "1mo" "1d" = inl e) \/
   (exists fr, yf_history w ticker "1mo" "1d" = inr fr /\ frame_empty fr = true) ->
     fst (format_daily_data w today ticker tr) = inr (error_dict "No data available")) /\
  (forall fr, yf_history w ticker "1mo" "1d" = inr fr -> frame_empty fr = false ->
     frame_empty (daily_filtered fr today) = true ->
     fst (format_daily_data w today ticker tr) = inr (error_dict "No historical data before today")) /\
  ((exists e, yf_history w ticker "2d" "30m" = inl e) \/
   (exists fr, yf_history w ticker "2d" "30m" = inr fr /\ frame_empty fr = true) ->
     fst (format_intraday_data w today ticker tr) = inr (error_dict "No data available")) /\
  (forall fr, yf_history w ticker "2d" "30m" = inr fr -> frame_empty fr = false ->
     frame_empty (intraday_filtered fr today) = true ->
     fst (format_intraday_data w today ticker tr) = inr (error_dict "No intraday data available")) /\
  (forall m, dict_keys (error_dict m) = ["error"]).
Proof.
  intros w today ticker tr.
  repeat split; try discriminate;
    unfold format_daily_data, format_intraday_data;
    rewrite ?formatter_try_run;
    unfold format_daily_body, format_intraday_body; run_py.
  - intros [[e He] | (fr & Hh & He)]; rewrite ?Hh, ?He; reflexivity.
  - intros fr Hh He Hf. now rewrite Hh, He, Hf.
  - intros [[e He] | (fr & Hh & He)]; rewrite ?Hh, ?He; reflexivity.
  - intros fr Hh He Hf. now rewrite Hh, He, Hf.
Qed.

(** ** The decision handler *)

Lemma existsb_eqb_in s l : existsb (String.eqb s) l = true <-> In s l.
Proof.
  rewrite existsb_exists. split.
  - intros (x & Hx & E). apply String.eqb_eq in E. now subst.
  - intros H. exists s. now rewrite String.eqb_refl.
Qed.

Lemma py_prefix_length n s : String.length (py_prefix n s) = Nat.min n (String.length s).
Proof.
  unfold py_prefix. revert n. induction s as [|c s IH]; intros [|n]; simpl; auto.
Qed.

Lemma py_prefix_is_prefix n s : String.prefix (py_prefix n s) s = true.
Proof.
  unfold py_prefix. revert n. induction s as [|c s IH]; intros [|n]; simpl; auto.
  destruct (ascii_dec c c) as [_|n0]; [apply IH | now destruct n0].
Qed.

Lemma dict_get_decision_action t a r : dict_get (decision_dict t a r) "action" = Some (PStr a).
Proof. reflexivity. Qed.

Lemma dict_get_error_action m : dict_get (error_dict m) "action" = None.
Proof. reflexivity. Qed.

Lemma key_nonempty key : key <> "" -> String.eqb key "" = false.
Proof. intros H. apply String.eqb_neq. exact H. Qed.

Lemma genai_not_a_global tr :
  resolve_global module_globals "genai" tr = (inl (NameError "genai"), tr).
Proof. reflexivity. Qed.

Lemma get_decision_run g w key ticker tr :
  get_decision g w key ticker tr =
  match get_decision_body g w key (py_upper ticker) tr with
  | (inl e, tr') =>
      (inr (decision_dict (py_upper ticker) "HOLD" ("Error during analysis: " ++ py_prefix 50 (exn_msg e)), 200), tr')
  | (inr r, tr') => (inr r, tr')
  end.
Proof. unfold get_decision, try_except, ret. now destruct (get_decision_body _ _ _ _ tr) as [[e|r] tr']. Qed.

(** C4: with [GEMINI_API_KEY] empty or unset, the handler returns the fixed
    HOLD answer and makes no outbound call (the trace is unchanged). *)
Theorem decision_without_key :
  (forall (g : list string) (w : World) (ticker : string) (tr : list Call),
     get_decision g w "" ticker tr
     = (inr (decision_dict (py_upper ticker) "HOLD"
               "No Gemini API key configured. Using default HOLD action.", 200), tr)) /\
  (forall (environ : string -> option string) (w : World) (ticker : string) (tr : list Call),
     environ "GEMINI_API_KEY" = None \/ environ "GEMINI_API_KEY" = Some "" ->
     serve_decision environ w ticker tr
     = (inr (decision_dict (py_upper ticker) "HOLD"
               "No Gemini API key configured. Using default HOLD action.", 200), tr)).
Proof.
  split.
  - intros. reflexivity.
  - intros environ w ticker tr Henv. unfold serve_decision, module_init, bind.
    destruct Henv as [-> | ->]; reflexivity.
Qed.

(** C2: the handler never raises: an exception [e] raised in its [try]
    block gives status 200 and [{ticker, "HOLD", "Error during analysis: "
    + str(e)[:50]}], where [str(e)[:50]] is the first (at most) 50
    characters of the message. *)
Theorem decision_fail_open :
  (forall (g : list string) (w : World) (key ticker : string) (tr : list Call),
     exists resp tr', get_decision g w key ticker tr = (inr resp, tr')) /\
  (forall (g : list string) (w : World) (key ticker : string) (tr : list Call) (e : Exn) (tr' : list Call),
     get_decision_body g w key (py_upper ticker) tr = (inl e, tr') ->
     get_decision g w key ticker tr
     = (inr (decision_dict (py_upper ticker) "HOLD"
               ("Error during analysis: " ++ py_prefix 50 (exn_msg e)), 200), tr')) /\
  (forall m : string,
     String.length (py_prefix 50 m) = Nat.min 50 (String.length m) /\
     String.prefix (py_prefix 50 m) m = true).
Proof.
  split; [|split].
  - intros g w key ticker tr. rewrite get_decision_run.
    destruct (get_decision_body _ _ _ _ tr) as [[e|r] tr']; eauto.
  - intros g w key ticker tr e tr' H. now rewrite get_decision_run, H.
  - intros m. split; [apply py_prefix_length | apply py_prefix_is_prefix].
Qed.

Ltac decision_case :=
  eexists; eexists; split; [reflexivity|];
  cbn [fst]; rewrite ?dict_get_decision_action, ?dict_get_error_action;
  repeat split; try congruence;
  let m := fresh "m" in let p := fresh "p" in let Hin := fresh "Hin" in
  intros m p Hin; simpl in Hin; intuition discriminate.

(** C3: no import binds [genai].  With a non-empty [GEMINI_API_KEY] the
    module's initialisation raises [NameError] at [genai.configure] (so a
    process configured with a key never serves a request); and any call of
    [get_decision] with a key answers HOLD (or the "No data available"
    400), never BUY or SELL, without calling the text-generation API: when
    it reaches the model it fails with that [NameError]. *)
Theorem genai_never_defined :
  (forall (environ : string -> option string) (tr : list Call) (k : string),
     environ "GEMINI_API_KEY" = Some k -> k <> "" ->
     module_init environ tr = (inl (NameError "genai"), tr)) /\
  (forall (environ : string -> option string) (w : World) (ticker : string) (tr : list Call) (k : string),
     environ "GEMINI_API_KEY" = Some k -> k <> "" ->
     serve_decision environ w ticker tr = (inl (NameError "genai"), tr)) /\
  (forall (w : World) (key ticker : string) (tr : list Call),
     key <> "" ->
     exists resp tr', get_decision module_globals w key ticker tr = (inr resp, tr') /\
       dict_get (fst resp) "action" <> Some (PStr "BUY") /\
       dict_get (fst resp) "action" <> Some (PStr "SELL") /\
       (forall m p, In (CallGenerate m p) tr' -> In (CallGenerate m p) tr)) /\
  (forall (w : World) (key ticker : string) (tr : list Call) (fr : Frame) info,
     key <> "" ->
     yf_history w (py_upper ticker) "5d" "1d" = inr fr ->
     yf_info w (py_upper ticker) = inr info ->
     frame_empty fr = false -> In "Close" (columns fr) ->
     fst (get_decision module_globals w key ticker tr)
     = inr (decision_dict (py_upper ticker) "HOLD"
              "Error during analysis: name 'genai' is not defined", 200)).
Proof.
  split; [|split; [|split]].
  - intros environ tr k Henv Hk. unfold module_init. rewrite Henv, key_nonempty by exact Hk.
    reflexivity.
  - intros environ w ticker tr k Henv Hk. unfold serve_decision, bind at 1.
    unfold module_init. rewrite Henv, key_nonempty by exact Hk. reflexivity.
  - intros w key ticker tr Hk. rewrite get_decision_run. unfold get_decision_body.
    rewrite key_nonempty by exact Hk. unfold bind, outbound, ret.
    destruct (yf_history w (py_upper ticker) "5d" "1d") as [e|fr]; [decision_case|].
    destruct (yf_info w (py_upper ticker)) as [e|info]; [decision_case|].
    destruct (frame_empty fr); [decision_case|].
    rewrite close_col_run. case_close; [|decision_case].
    rewrite genai_not_a_global. decision_case.
  - intros w key ticker tr fr info Hk Hh Hi He Hc. rewrite get_decision_run. unfold get_decision_body.
    rewrite key_nonempty by exact Hk. unfold bind, outbound, ret.
    rewrite Hh, Hi, He, close_col_run, (close_present _ Hc), genai_not_a_global.
    reflexivity.
Qed.

(** ** Parsing the model's reply *)

Lemma parse_reply_valid text : In (fst (parse_reply text)) valid_actions.
Proof.
  unfold parse_reply. cbv zeta.
  match goal with |- context [existsb (String.eqb ?a) valid_actions] =>
    destruct (existsb (String.eqb a) valid_actions) eqn:E end.
  - now apply existsb_eqb_in in E.
  - simpl. auto.
Qed.

Lemma decision_body_results g w key t tr d st tr' :
  get_decision_body g w key t tr = (inr (d, st), tr') ->
  (exists a r, d = decision_dict t a r /\ In a valid_actions /\ st = 200)
  \/ (d = error_dict "No data available" /\ st = 400).
Proof.
  unfold get_decision_body, bind, outbound, ret.
  destruct (String.eqb key "").
  - intros [= <- <- _]. left. exists "HOLD", "No Gemini API key configured. Using default HOLD action.".
    split; [reflexivity | split; [simpl; auto | reflexivity]].
  - destruct (yf_history w t "5d" "1d") as [e|fr]; [discriminate|].
    destruct (yf_info w t) as [e|info]; [discriminate|].
    destruct (frame_empty fr); [intros [= <- <- _]; now right|].
    rewrite close_col_run. case_close; [|discriminate].
    unfold resolve_global, ret, raise.
    destruct (existsb (String.eqb "genai") (g ++ builtin_names)); [|discriminate].
    destruct (genai_generate w "gemini-pro" _) as [e|text]; [discriminate|].
    pose proof (parse_reply_valid text) as Hv.
    destruct (parse_reply text) as [a r]. intros [= <- <- _]. left. eauto.
Qed.

(** C5 fails as stated: the reply's first line is empty, so trimmed and
    upper-cased it is none of BUY, SELL, HOLD, yet the parser answers BUY,
    because it strips the whole reply before splitting it into lines. *)
Lemma leading_blank_line_keeps_buy :
  py_upper (py_strip (hd "" (split_nl reply_leading_blank))) = "" /\
  ~ In "" valid_actions /\
  parse_reply reply_leading_blank = ("BUY", "Strong upward momentum").
Proof.
  split; [reflexivity|]. split; [|reflexivity].
  simpl. intuition discriminate.
Qed.

(** C5 (as the code parses): when the first line of the stripped reply,
    trimmed and upper-cased, is none of BUY, SELL, HOLD (for instance
    "MAYBE\nuncertain"), the parser answers HOLD with the fixed reason; so
    every decision the handler returns has one of the three actions. *)
Theorem parse_reply_normalises :
  (forall text : string,
     ~ In (py_upper (py_strip (hd "" (split_nl (py_strip text))))) valid_actions ->
     parse_reply text = ("HOLD", "Unable to determine clear action; defaulting to HOLD.")) /\
  parse_reply ("MAYBE" ++ nl ++ "uncertain")
    = ("HOLD", "Unable to determine clear action; defaulting to HOLD.") /\
  (forall text : string, In (fst (parse_reply text)) valid_actions) /\
  (forall (g : list string) (w : World) (key ticker : string) (tr : list Call) (d : Dict) (st : Z) (tr' : list Call),
     get_decision g w key ticker tr = (inr (d, st), tr') ->
     (exists t a r, d = decision_dict t a r /\ In a valid_actions /\ st = 200)
     \/ (d = error_dict "No data available" /\ st = 400)).
Proof.
  split; [|split; [|split]].
  - intros text Hn. unfold parse_reply. cbv zeta.
    destruct (existsb _ valid_actions) eqn:E; [|reflexivity].
    apply existsb_eqb_in in E. contradiction.
  - reflexivity.
  - exact parse_reply_valid.
  - intros g w key ticker tr d st tr'. rewrite get_decision_run.
    destruct (get_decision_body g w key (py_upper ticker) tr) as [[e|[d0 st0]] tr0] eqn:E.
    + intros [= <- <- _]. left. eexists (py_upper ticker), "HOLD", _.
      split; [reflexivity | split; [simpl; auto | reflexivity]].
    + intros [= -> -> ->]. apply decision_body_results in E as [(a & r & Ha)|Hb]; [left|now right].
      exists (py_upper ticker), a, r. exact Ha.
Qed.

(* ------------------------------------------------------------------ *)
(** ** The theorems at concrete inputs *)

Lemma formatters_never_raise_witness :
  fst (format_daily_body no_close_world (mkDate 2025 3 5) "SPY" []) = inl (KeyError "Close") /\
  fst (format_daily_data no_close_world (mkDate 2025 3 5) "SPY" []) = inr (error_dict "'Close'") /\
  fst (format_monthly_data offline_world "SPY" []) = inr (error_dict "No data available").
Proof.
  assert (Hk : fst (format_daily_body no_close_world (mkDate 2025 3 5) "SPY" []) = inl (KeyError "Close"))
    by reflexivity.
  split; [exact Hk|]. split.
  - destruct (formatters_never_raise no_close_world (mkDate 2025 3 5) "SPY" [])
      as (_ & _ & _ & D & _).
    exact (D _ Hk).
  - destruct (formatters_never_raise offline_world (mkDate 2025 3 5) "SPY" [])
      as (_ & _ & _ & _ & _ & _ & F & _).
    exact (proj2 (F connection_error eq_refl)).
Defined.

Lemma daily_drops_today_keeps_last_30_witness :
  yf_history demo_world "SPY" "1mo" "1d" = inr daily_frame /\
  frame_empty daily_frame = false /\
  fst (format_daily_data demo_world (mkDate 2025 3 5) "SPY" [])
  = inr (series_dict "SPY" "daily" ["2025-03-03"; "2025-03-04"]
                                   [py_round2 101.5%float; py_round2 102.25%float]).
Proof.
  split; [reflexivity|]. split; [reflexivity|].
  destruct (daily_drops_today_keeps_last_30 demo_world (mkDate 2025 3 5) "SPY" [] daily_frame
              eq_refl eq_refl) as [_ H].
  destruct (H ltac:(discriminate) ltac:(simpl; tauto)) as [E _].
  exact E.
Defined.

Lemma intraday_falls_back_to_last_day_witness :
  fst (format_intraday_data demo_world (mkDate 2025 3 10) "SPY" [])
  = inr (series_dict "SPY" "intraday" ["09:30"; "10:00"]
                                      [py_round2 50.125%float; py_round2 50.5%float]).
Proof.
  destruct (proj1 intraday_falls_back_to_last_day demo_world (mkDate 2025 3 10) "SPY" []
              saturday_frame eq_refl eq_refl ltac:(simpl; tauto)
              ltac:(intros b Hb Heq; simpl in Hb;
                    destruct Hb as [<-|[<-|[]]]; vm_compute in Heq; discriminate))
    as (lb & Hlb & _ & E).
  vm_compute in Hlb. injection Hlb as <-. exact E.
Defined.

Lemma monthly_single_rounded_mean_witness :
  fst (format_monthly_data two_bar_world "SPY" [])
  = inr (series_dict "SPY" "monthly" ["2025-03"]
           [py_round2 (pd_mean [100.004%float; 100.006%float])]).
Proof.
  destruct (monthly_single_rounded_mean two_bar_world "SPY" [] two_bar_frame
              eq_refl eq_refl ltac:(simpl; tauto)) as (lb & Hlb & E).
  vm_compute in Hlb. injection Hlb as <-. exact E.
Defined.

Lemma empty_after_filter_message_distinct_witness :
  fst (format_daily_data today_only_world (mkDate 2025 3 5) "SPY" [])
    = inr (error_dict "No historical data before today") /\
  fst (format_daily_data offline_world (mkDate 2025 3 5) "SPY" [])
    = inr (error_dict "No data available").
Proof.
  split.
  - exact (proj1 (proj2 (proj2 (proj2 (empty_after_filter_message_distinct
             today_only_world (mkDate 2025 3 5) "SPY" []))))
             today_only_frame eq_refl eq_refl eq_refl).
  - exact (proj1 (proj2 (proj2 (empty_after_filter_message_distinct
             offline_world (mkDate 2025 3 5) "SPY" [])))
             (or_introl (ex_intro _ connection_error eq_refl))).
Defined.

Lemma decision_without_key_witness :
  serve_decision no_key_env demo_world "spy" []
  = (inr (decision_dict "SPY" "HOLD"
            "No Gemini API key configured. Using default HOLD action.", 200), []).
Proof.
  exact (proj2 decision_without_key no_key_env demo_world "spy" [] (or_introl eq_refl)).
Defined.

Lemma decision_fail_open_witness :
  get_decision_body module_globals offline_world "abc123" "SPY" []
    = (inl connection_error, [CallHistory "SPY" "5d" "1d"]) /\
  get_decision module_globals offline_world "abc123" "spy" []
    = (inr (decision_dict "SPY" "HOLD"
              "Error during analysis: HTTPSConnectionPool(host='query2.finance.yahoo.com", 200),
       [CallHistory "SPY" "5d" "1d"]).
Proof.
  assert (H : get_decision_body module_globals offline_world "abc123" "SPY" []
              = (inl connection_error, [CallHistory "SPY" "5d" "1d"])) by reflexivity.
  split; [exact H|].
  exact (proj1 (proj2 decision_fail_open) module_globals offline_world "abc123" "spy" [] _ _ H).
Defined.

Lemma genai_never_defined_witness :
  serve_decision key_env demo_world "spy" [] = (inl (NameError "genai"), []) /\
  fst (get_decision module_globals demo_world "abc123" "spy" [])
    = inr (decision_dict "SPY" "HOLD" "Error during analysis: name 'genai' is not defined", 200).
Proof.
  split.
  - exact (proj1 (proj2 genai_never_defined) key_env demo_world "spy" [] "abc123"
             eq_refl ltac:(discriminate)).
  - exact (proj2 (proj2 (proj2 genai_never_defined)) demo_world "abc123" "spy" [] daily_frame
             demo_info ltac:(discriminate) eq_refl eq_refl eq_refl ltac:(simpl; tauto)).
Defined.

Lemma parse_reply_normalises_witness :
  parse_reply ("maybe" ++ nl ++ "uncertain")
    = ("HOLD", "Unable to determine clear action; defaulting to HOLD.") /\
  ((exists t a r, decision_dict "SPY" "SELL" "Weak earnings outlook" = decision_dict t a r
                  /\ In a valid_actions /\ 200 = 200)
   \/ (decision_dict "SPY" "SELL" "Weak earnings outlook" = error_dict "No data available"
       /\ 200 = 400)).
Proof.
  split.
  - exact (proj1 parse_reply_normalises ("maybe" ++ nl ++ "uncertain")
             ltac:(vm_compute; intuition discriminate)).
  - exact (proj2 (proj2 (proj2 parse_reply_normalises)) ("genai" :: module_globals) demo_world
             "abc123" "spy" [] _ _ _ eq_refl).
Defined.

(* ================================================================== *)
(** * Further properties of the module *)

(** ** Outbound calls of the formatters *)

Lemma formatter_try_trace (body : Py Dict) tr :
  snd (try_except body (fun e => ret (error_dict (exn_msg e))) tr) = snd (body tr).
Proof. rewrite formatter_try_run. now destruct (body tr) as [[e|d] tr']. Qed.

(** X1: each formatter asks the provider for the ticker's history exactly
    once, with its own period and interval, and makes no other outbound
    call, whatever the provider answers. *)
Theorem formatters_one_history_call :
  forall (w : World) (today : Date) (ticker : string) (tr : list Call),
  snd (format_daily_data w today ticker tr) = CallHistory ticker "1mo" "1d" :: tr /\
  snd (format_intraday_data w today ticker tr) = CallHistory ticker "2d" "30m" :: tr /\
  snd (format_monthly_data w ticker tr) = CallHistory ticker "1mo" "1d" :: tr.
Proof.
  intros w today ticker tr.
  unfold format_daily_data, format_intraday_data, format_monthly_data.
  rewrite !formatter_try_trace.
  split; [|split].
  - unfold format_daily_body. run_py.
    destruct (yf_history w ticker "1mo" "1d") as [e|fr]; [reflexivity|].
    destruct (frame_empty fr); [reflexivity|].
    destruct (frame_empty (daily_filtered fr today)); [reflexivity|].
    case_close; reflexivity.
  - unfold format_intraday_body. run_py.
    destruct (yf_history w ticker "2d" "30m") as [e|fr]; [reflexivity|].
    destruct (frame_empty fr); [reflexivity|].
    destruct (frame_empty (intraday_filtered fr today)); [reflexivity|].
    case_close; reflexivity.
  - unfold format_monthly_body. run_py.
    destruct (yf_history w ticker "1mo" "1d") as [e|fr]; [reflexivity|].
    destruct (frame_empty fr); [reflexivity|].
    case_close; [destruct (last_opt (rows fr))|]; reflexivity.
Qed.

(** ** The series routes *)

Lemma route_body_error t r m : route_body t r (error_dict m).
Proof. left. now exists m. Qed.

#[local] Hint Resolve route_body_error : py.

Lemma route_body_series t r labels values :
  List.length labels = List.length values -> route_body t r (series_dict t r labels values).
Proof. intros H. right. eauto. Qed.

Lemma daily_body_route w today t tr d tr' :
  format_daily_body w today t tr = (inr d, tr') -> route_body t "daily" d.
Proof.
  unfold format_daily_body. run_py.
  destruct (yf_history w t "1mo" "1d") as [e|fr]; [intros H; inversion H; subst; auto with py|].
  destruct (frame_empty fr); [intros H; inversion H; subst; auto with py|].
  destruct (frame_empty (daily_filtered fr today)); [intros H; inversion H; subst; auto with py|].
  case_close; intros H; inversion H; subst.
  apply route_body_series. now rewrite !length_map.
Qed.

Lemma intraday_body_route w today t tr d tr' :
  format_intraday_body w today t tr = (inr d, tr') -> route_body t "intraday" d.
Proof.
  unfold format_intraday_body. run_py.
  destruct (yf_history w t "2d" "30m") as [e|fr]; [intros H; inversion H; subst; auto with py|].
  destruct (frame_empty fr); [intros H; inversion H; subst; auto with py|].
  destruct (frame_empty (intraday_filtered fr today)); [intros H; inversion H; subst; auto with py|].
  case_close; intros H; inversion H; subst.
  apply route_body_series. now rewrite !length_map.
Qed.

Lemma monthly_body_route w t tr d tr' :
  format_monthly_body w t tr = (inr d, tr') -> route_body t "monthly" d.
Proof.
  unfold format_monthly_body. run_py.
  destruct (yf_history w t "1mo" "1d") as [e|fr]; [intros H; inversion H; subst; auto with py|].
  destruct (frame_empty fr); [intros H; inversion H; subst; auto with py|].
  case_close; [|intros H; inversion H].
  destruct (last_opt (rows fr)); intros H; inversion H; subst; auto with py.
  now apply route_body_series.
Qed.

(** [jsonify(format_X(ticker))] with the default status. *)
Lemma route_run (f : Py Dict) tr :
  (d <- f ;; ret (d, 200)) tr
  = match f tr with (inl e, tr') => (inl e, tr') | (inr d, tr') => (inr (d, 200), tr') end.
Proof. unfold bind, ret. now destruct (f tr) as [[e|d] tr']. Qed.

Lemma route_answers (body : Py Dict) t r tr :
  (forall tr0 d tr', body tr0 = (inr d, tr') -> route_body t r d) ->
  exists d tr',
    (d <- try_except body (fun e => ret (error_dict (exn_msg e))) ;; ret (d, 200)) tr
    = (inr (d, 200), tr') /\ route_body t r d.
Proof.
  intros Hb. rewrite route_run, formatter_try_run.
  destruct (body tr) as [[e|d] tr'] eqn:E.
  - exists (error_dict (exn_msg e)), tr'. auto with py.
  - exists d, tr'. split; [reflexivity | eapply Hb; eauto].
Qed.

(** X2: the three series routes never raise and always answer with status
    200, also when the body is an error dict; a success body is the
    series of the route's range for the upper-cased ticker, with as many
    labels as values. *)
Theorem series_routes_answer_200 :
  forall (w : World) (today : Date) (ticker : string) (tr : list Call),
  (exists d tr', get_daily w today ticker tr = (inr (d, 200), tr')
                 /\ route_body (py_upper ticker) "daily" d) /\
  (exists d tr', get_intraday w today ticker tr = (inr (d, 200), tr')
                 /\ route_body (py_upper ticker) "intraday" d) /\
  (exists d tr', get_monthly w ticker tr = (inr (d, 200), tr')
                 /\ route_body (py_upper ticker) "monthly" d).
Proof.
  intros w today ticker tr. split; [|split].
  - apply route_answers. intros. eapply daily_body_route; eauto.
  - apply route_answers. intros. eapply intraday_body_route; eauto.
  - apply route_answers. intros. eapply monthly_body_route; eauto.
Qed.

(** ** Upper-casing the ticker *)

Lemma ascii_upper_idem c : ascii_upper (ascii_upper c) = ascii_upper c.
Proof. destruct c as [[] [] [] [] [] [] [] []]; reflexivity. Qed.

Lemma py_upper_idem s : py_upper (py_upper s) = py_upper s.
Proof. induction s as [|c s IH]; simpl; [reflexivity|]. now rewrite ascii_upper_idem, IH. Qed.

(** X3: every ticker route upper-cases its argument first, and [upper] is
    idempotent, so a route answers (and calls out) identically for a
    ticker and its upper-cased spelling. *)
Theorem routes_ignore_ticker_case :
  forall (w : World) (src : InfoSource) (g : list string) (key : string) (today : Date)
         (ticker : string),
  get_daily w today (py_upper ticker) = get_daily w today ticker /\
  get_intraday w today (py_upper ticker) = get_intraday w today ticker /\
  get_monthly w (py_upper ticker) = get_monthly w ticker /\
  get_info src (py_upper ticker) = get_info src ticker /\
  get_decision g w key (py_upper ticker) = get_decision g w key ticker.
Proof.
  intros. unfold get_daily, get_intraday, get_monthly, get_info, get_decision.
  rewrite !py_upper_idem. repeat split.
Qed.

(** ** The info route *)

(** X4: [get_info] never raises.  When the info lookup raises [e] it
    answers [{"error": str(e)}] with status 400; otherwise it answers with
    status 200 exactly the keys ticker, name, price, change and
    changePercent, the upper-cased ticker, and each other field copied
    from its info entry, or "N/A" when the entry is missing.  Either way
    it makes exactly one info call, for the upper-cased ticker. *)
Theorem get_info_answers :
  (forall (src : InfoSource) (ticker : string) (tr : list Call) (e : Exn),
     src (py_upper ticker) = inl e ->
     get_info src ticker tr
     = (inr (error_dict (exn_msg e), 400), CallInfo (py_upper ticker) :: tr)) /\
  (forall (src : InfoSource) (ticker : string) (tr : list Call) (info : string -> option PyVal),
     src (py_upper ticker) = inr info ->
     exists d, get_info src ticker tr = (inr (d, 200), CallInfo (py_upper ticker) :: tr) /\
       dict_keys d = ["ticker"; "name"; "price"; "change"; "changePercent"] /\
       dict_get d "ticker" = Some (PStr (py_upper ticker)) /\
       (forall k field,
          In (k, field) [("name", "longName"); ("price", "currentPrice");
                         ("change", "regularMarketChange");
                         ("changePercent", "regularMarketChangePercent")] ->
          dict_get d k = Some (match info field with Some v => v | None => PStr "N/A" end))).
Proof.
  split.
  - intros src ticker tr e H. unfold get_info, try_except, bind, outbound, ret.
    cbv beta zeta. now rewrite H.
  - intros src ticker tr info H. eexists. split.
    + unfold get_info, try_except, bind, outbound, ret. cbv beta zeta. rewrite H. reflexivity.
    + split; [reflexivity|]. split; [reflexivity|].
      intros k field Hin. simpl in Hin.
      destruct Hin as [[= <- <-]|[[= <- <-]|[[= <- <-]|[[= <- <-]|[]]]]]; reflexivity.
Qed.

(** ** The intraday formatter on a trading day *)

(** X5: when some bars of the intraday series are dated UTC-today minus
    one day, [format_intraday_data] returns exactly those bars, in order,
    labelled [HH:MM] with rounded closes; bars of other days, including
    the last bar's own day, are left out. *)
Theorem intraday_prefers_yesterday :
  forall (w : World) (today : Date) (ticker : string) (tr : list Call) (fr : Frame),
  yf_history w ticker "2d" "30m" = inr fr ->
  In "Close" (columns fr) ->
  let sel := filter (fun b => date_eqb (bar_date b) (prev_day today)) (rows fr) in
  sel <> [] ->
  fst (format_intraday_data w today ticker tr)
  = inr (series_dict ticker "intraday" (map (fun b => strftime_hm (bar_ts b)) sel)
                                       (map (fun b => py_round2 (bar_close b)) sel)).
Proof.
  intros w today ticker tr fr Hh Hc sel Hsel.
  assert (He : frame_empty fr = false).
  { unfold frame_empty. destruct (rows fr) eqn:Er; [unfold sel in Hsel; rewrite ?Er in Hsel; now destruct Hsel|].
    destruct (columns fr); [destruct Hc|reflexivity]. }
  rewrite (intraday_run w today ticker tr fr Hh He Hc).
  assert (E : rows (intraday_filtered fr today) = sel).
  { unfold intraday_filtered. fold sel.
    rewrite (frame_empty_with_rows fr sel He).
    destruct sel as [|b rest]; [contradiction|reflexivity]. }
  now rewrite E.
Qed.

(** ** The previous calendar day *)

Lemma days_in_month_range y m : 28 <= days_in_month y m <= 31.
Proof.
  unfold days_in_month.
  repeat match goal with |- context [if ?b then _ else _] => destruct b end; lia.
Qed.

Lemma date_ltb_iff a b :
  date_ltb a b = true <->
  year a < year b \/ (year a = year b /\ (month a < month b \/ (month a = month b /\ day a < day b))).
Proof.
  unfold date_ltb. repeat rewrite ?orb_true_iff, ?andb_true_iff, ?Z.ltb_lt, ?Z.eqb_eq. reflexivity.
Qed.

(** X6: for an existing date [d], [d - timedelta(days=1)] as the module
    computes it is an existing date, comes before [d], and no existing
    date lies strictly between the two (it is the day before [d], across
    month ends, leap years and year ends). *)
Theorem prev_day_is_day_before :
  forall d : Date, valid_date d ->
  valid_date (prev_day d) /\ date_ltb (prev_day d) d = true /\
  (forall x : Date, valid_date x -> date_ltb (prev_day d) x = true -> date_ltb x d = false).
Proof.
  intros [y m dd] [Hm Hd]; cbn [year month day] in *. unfold prev_day; cbn [year month day].
  destruct (1 <? dd) eqn:E1; [apply Z.ltb_lt in E1 | apply Z.ltb_ge in E1].
  - split; [unfold valid_date; cbn [year month day]; lia|].
    split; [apply date_ltb_iff; cbn [year month day]; lia|].
    intros [xy xm xd] [Hxm Hxd] H1. cbn [year month day] in *.
    apply date_ltb_iff in H1. cbn [year month day] in H1.
    apply not_true_iff_false. rewrite date_ltb_iff. cbn [year month day]. lia.
  - destruct (1 <? m) eqn:E2; [apply Z.ltb_lt in E2 | apply Z.ltb_ge in E2].
    + pose proof (days_in_month_range y (m - 1)).
      split; [unfold valid_date; cbn [year month day]; lia|].
      split; [apply date_ltb_iff; cbn [year month day]; lia|].
      intros [xy xm xd] [Hxm Hxd] H1. cbn [year month day] in *.
      apply date_ltb_iff in H1. cbn [year month day] in H1.
      apply not_true_iff_false. rewrite date_ltb_iff. cbn [year month day].
      destruct H1 as [H1|[-> [H1|[-> H1]]]]; lia.
    + assert (H12 : days_in_month (y - 1) 12 = 31) by reflexivity.
      split; [unfold valid_date; cbn [year month day]; lia|].
      split; [apply date_ltb_iff; cbn [year month day]; lia|].
      intros [xy xm xd] [Hxm Hxd] H1. cbn [year month day] in *.
      pose proof (days_in_month_range xy xm).
      apply date_ltb_iff in H1. cbn [year month day] in H1.
      apply not_true_iff_false. rewrite date_ltb_iff. cbn [year month day]. lia.
Qed.

(** ** The decision handler with a key *)

(** X7: with a key, [get_decision] fetches the 5-day history and then the
    info before it looks at either.  An empty history gives status 400 and
    [{"error": "No data available"}] after both calls; a failing info
    lookup gives the HOLD fallback even when the history is usable. *)
Theorem decision_fetches_history_then_info :
  (forall (g : list string) (w : World) (key ticker : string) (tr : list Call) (fr : Frame)
          (info : string -> option string),
     key <> "" ->
     yf_history w (py_upper ticker) "5d" "1d" = inr fr ->
     yf_info w (py_upper ticker) = inr info ->
     frame_empty fr = true ->
     get_decision g w key ticker tr
     = (inr (error_dict "No data available", 400),
        CallInfo (py_upper ticker) :: CallHistory (py_upper ticker) "5d" "1d" :: tr)) /\
  (forall (g : list string) (w : World) (key ticker : string) (tr : list Call) (fr : Frame)
          (e : Exn),
     key <> "" ->
     yf_history w (py_upper ticker) "5d" "1d" = inr fr ->
     yf_info w (py_upper ticker) = inl e ->
     get_decision g w key ticker tr
     = (inr (decision_dict (py_upper ticker) "HOLD"
               ("Error during analysis: " ++ py_prefix 50 (exn_msg e)), 200),
        CallInfo (py_upper ticker) :: CallHistory (py_upper ticker) "5d" "1d" :: tr)).
Proof.
  split.
  - intros g w key ticker tr fr info Hk Hh Hi He. rewrite get_decision_run.
    unfold get_decision_body. rewrite key_nonempty by exact Hk. unfold bind, outbound, ret.
    rewrite Hh, Hi, He. reflexivity.
  - intros g w key ticker tr fr e Hk Hh Hi. rewrite get_decision_run.
    unfold get_decision_body. rewrite key_nonempty by exact Hk. unfold bind, outbound, ret.
    rewrite Hh, Hi. reflexivity.
Qed.

Lemma last_opt_map {A B} (f : A -> B) l : last_opt (map f l) = option_map f (last_opt l).
Proof. unfold last_opt. rewrite <- map_rev. now destruct (rev l). Qed.

Lemma last_opt_tail_n {A} n (l : list A) : (0 < n)%nat -> last_opt (tail_n n l) = last_opt l.
Proof.
  intros Hn. unfold last_opt, tail_n.
  destruct l as [|a l0] eqn:El; [reflexivity|]. rewrite <- El.
  assert (Hlen : (0 < List.length l)%nat) by (subst; simpl; lia).
  replace (rev (skipn (List.length l - n) l))
    with (firstn (S (Nat.pred (Nat.min n (List.length l)))) (rev l))
    by (rewrite firstn_rev; do 2 f_equal; lia).
  destruct (rev l) as [|x r] eqn:Er; [|reflexivity].
  apply (f_equal (@List.length A)) in Er. rewrite length_rev in Er. simpl in Er. lia.
Qed.

(** X8: were [genai] bound (the import the module lacks), a keyed
    decision for a non-empty history with a [Close] column would make
    exactly three outbound calls: history, info, then one request to
    model gemini-pro whose prompt carries the info's long name (or the
    ticker), the last close as the current price and the last (at most)
    five closes; the answer is the parsed reply with status 200. *)
Theorem decision_with_model_bound :
  forall (g : list string) (w : World) (key ticker : string) (tr : list Call) (fr : Frame)
         (info : string -> option string) (lb : Bar) (text : string),
  In "genai" g -> key <> "" ->
  yf_history w (py_upper ticker) "5d" "1d" = inr fr ->
  yf_info w (py_upper ticker) = inr info ->
  In "Close" (columns fr) ->
  last_opt (rows fr) = Some lb ->
  let prompt := build_prompt (py_upper ticker) (info_get info "longName" (py_upper ticker))
                  (bar_close lb) (tail_n 5 (map bar_close (rows fr))) in
  genai_generate w "gemini-pro" prompt = inr text ->
  get_decision g w key ticker tr
  = (inr (decision_dict (py_upper ticker) (fst (parse_reply text)) (snd (parse_reply text)), 200),
     CallGenerate "gemini-pro" prompt :: CallInfo (py_upper ticker)
       :: CallHistory (py_upper ticker) "5d" "1d" :: tr).
Proof.
  intros g w key ticker tr fr info lb text Hg Hk Hh Hi Hc Hlb prompt Ht.
  assert (He : frame_empty fr = false).
  { unfold frame_empty. destruct (rows fr); [discriminate|].
    destruct (columns fr); [destruct Hc|reflexivity]. }
  assert (Hcur : last_opt (tail_n 5 (map bar_close (rows fr))) = Some (bar_close lb)).
  { rewrite last_opt_tail_n by lia. now rewrite last_opt_map, Hlb. }
  assert (Hg' : existsb (String.eqb "genai") (g ++ builtin_names) = true).
  { apply existsb_eqb_in, in_or_app. now left. }
  rewrite get_decision_run.
  unfold get_decision_body. rewrite key_nonempty by exact Hk. unfold bind, outbound, ret.
  rewrite Hh, Hi, He, close_col_run, (close_present _ Hc), Hcur.
  unfold resolve_global, ret. rewrite Hg'. fold prompt. rewrite Ht.
  now destruct (parse_reply text).
Qed.

(** ** Whitespace around the model's reply *)

Lemma lstrip_leading_space c s : py_isspace c = true -> lstrip (String c s) = lstrip s.
Proof. intros H. simpl. now rewrite H. Qed.

Lemma list_ascii_of_string_append s t :
  list_ascii_of_string (s ++ t) = (list_ascii_of_string s ++ list_ascii_of_string t)%list.
Proof. induction s as [|c s IH]; simpl; congruence. Qed.

Lemma string_of_list_ascii_append l1 l2 :
  string_of_list_ascii (l1 ++ l2) = string_of_list_ascii l1 ++ string_of_list_ascii l2.
Proof. induction l1 as [|c l1 IH]; simpl; congruence. Qed.

Lemma rev_string_snoc s c : rev_string (s ++ String c EmptyString) = String c (rev_string s).
Proof.
  unfold rev_string. rewrite list_ascii_of_string_append, rev_app_distr. reflexivity.
Qed.

(** Removing leading whitespace from a string with one more character at
    the end. *)
Lemma lstrip_snoc s c :
  lstrip (s ++ String c EmptyString)
  = match lstrip s with
    | EmptyString => if py_isspace c then EmptyString else String c EmptyString
    | r => r ++ String c EmptyString
    end.
Proof.
  induction s as [|c0 s IH]; simpl; [destruct (py_isspace c); reflexivity|].
  destruct (py_isspace c0); [exact IH | reflexivity].
Qed.

Lemma py_strip_leading c s : py_isspace c = true -> py_strip (String c s) = py_strip s.
Proof. intros H. unfold py_strip. now rewrite lstrip_leading_space. Qed.

Lemma py_strip_trailing c s : py_isspace c = true -> py_strip (s ++ String c EmptyString) = py_strip s.
Proof.
  intros H. unfold py_strip. rewrite lstrip_snoc, H.
  destruct (lstrip s) as [|c0 r] eqn:E; [reflexivity|].
  rewrite rev_string_snoc. simpl. now rewrite H.
Qed.

(** X9: the reply is stripped before it is split into lines, so a
    whitespace character (space, tab, newline, ...) added at either end of
    the model's reply never changes the decision parsed from it. *)
Theorem parse_reply_ignores_outer_whitespace :
  forall (c : ascii) (text : string), py_isspace c = true ->
  parse_reply (String c text) = parse_reply text /\
  parse_reply (text ++ String c EmptyString) = parse_reply text.
Proof.
  intros c text H. unfold parse_reply.
  now rewrite py_strip_leading, py_strip_trailing by exact H.
Qed.

(** ** Monthly mean of missing closes *)

Lemma Forall_firstn' {A} (P : A -> Prop) n l : Forall P l -> Forall P (firstn n l).
Proof.
  revert l. induction n as [|n IH]; intros [|x l] H; simpl; auto.
  inversion H; subst. constructor; auto.
Qed.

Lemma Forall_skipn' {A} (P : A -> Prop) n l : Forall P l -> Forall P (skipn n l).
Proof.
  revert l. induction n as [|n IH]; intros [|x l] H; simpl; auto.
  inversion H; subst. auto.
Qed.

Lemma fold_add_zeros l a :
  Forall (fun x => x = 0%float) l -> a = 0%float ->
  fold_left (fun acc x => (acc + x)%float) l a = 0%float.
Proof.
  intros H. revert a. induction H as [|x l Hx Hl IH]; intros a Ha; simpl; [exact Ha|].
  apply IH. subst. reflexivity.
Qed.

Lemma chunks8_zeros fuel l :
  Forall (fun x => x = 0%float) l -> Forall (Forall (fun x => x = 0%float)) (chunks8 fuel l).
Proof.
  revert l. induction fuel as [|fuel IH]; intros l H; cbn [chunks8]; [constructor|].
  destruct l; cbv beta iota; constructor.
  - now apply Forall_firstn'.
  - apply IH. now apply Forall_skipn'.
Qed.

Lemma add8_zeros r c :
  Forall (fun x => x = 0%float) r -> Forall (fun x => x = 0%float) c ->
  Forall (fun x => x = 0%float) (add8 r c).
Proof.
  unfold add8. intros Hr. revert c.
  induction Hr as [|x r Hx Hr IH]; intros [|y c] Hc; simpl; try constructor.
  - inversion Hc; subst. reflexivity.
  - inversion Hc; subst. now apply IH.
Qed.

Lemma fold_add8_zeros bs acc :
  Forall (Forall (fun x => x = 0%float)) bs -> Forall (fun x => x = 0%float) acc ->
  Forall (fun x => x = 0%float) (fold_left add8 bs acc).
Proof.
  intros H. revert acc. induction H as [|b bs Hb Hbs IH]; intros acc Hacc; simpl; [exact Hacc|].
  apply IH. now apply add8_zeros.
Qed.

Lemma sum8_zeros r : Forall (fun x => x = 0%float) r -> sum8 r = 0%float.
Proof.
  intros H. unfold sum8.
  destruct r as [|r0 [|r1 [|r2 [|r3 [|r4 [|r5 [|r6 [|r7 [|r8 r]]]]]]]]]; try reflexivity.
  repeat match goal with Hf : Forall _ (_ :: _) |- _ => inversion Hf; subst; clear Hf end.
  reflexivity.
Qed.

Lemma pairwise_sum_fuel_zeros fuel a :
  Forall (fun x => x = 0%float) a -> pairwise_sum_fuel fuel a = 0%float.
Proof.
  revert a. induction fuel as [|fuel IH]; intros a Ha;
    cbn [pairwise_sum_fuel]; cbv zeta;
    (destruct (List.length a <? 8)%nat; [now apply fold_add_zeros|]);
    (destruct (List.length a <=? 128)%nat;
       [apply fold_add_zeros; [now apply Forall_skipn'|];
        apply sum8_zeros, fold_add8_zeros;
        [ match goal with |- Forall _ (tl ?bs) =>
            assert (Hb : Forall (Forall (fun x => x = 0%float)) bs)
              by (apply chunks8_zeros, Forall_firstn'; exact Ha);
            destruct bs; [constructor | now inversion Hb] end
        | match goal with |- Forall _ (hd [] ?bs) =>
            assert (Hb : Forall (Forall (fun x => x = 0%float)) bs)
              by (apply chunks8_zeros, Forall_firstn'; exact Ha);
            destruct bs; [constructor | now inversion Hb] end ] |]).
  - reflexivity.
  - rewrite !IH; [reflexivity | now apply Forall_skipn' | now apply Forall_firstn'].
Qed.

Lemma pd_mean_all_nan xs :
  (forall x, In x xs -> is_nan x = true) -> pd_mean xs = (0 / float_of_nat 0)%float.
Proof.
  intros H. unfold pd_mean.
  rewrite (proj2 (filter_nil_iff _ xs)) by (intros x Hx; now rewrite (H x Hx)).
  assert (Hz : Forall (fun x => x = 0%float) (map (fun x => if is_nan x then 0%float else x) xs)).
  { apply Forall_forall. intros y Hy. apply in_map_iff in Hy as (x & <- & Hx).
    now rewrite (H x Hx). }
  unfold np_sum, pairwise_sum. rewrite pairwise_sum_fuel_zeros by exact Hz. reflexivity.
Qed.

(** X10: pandas' mean skips NaN, so when every close of a non-empty
    monthly series is missing (NaN) the mean divides 0 by a count of 0:
    [format_monthly_data] then succeeds with a single value that is NaN,
    which [round] leaves NaN, instead of reporting an error. *)
Theorem monthly_all_nan_closes_give_nan :
  forall (w : World) (ticker : string) (tr : list Call) (fr : Frame),
  yf_history w ticker "1mo" "1d" = inr fr ->
  frame_empty fr = false ->
  In "Close" (columns fr) ->
  (forall b, In b (rows fr) -> is_nan (bar_close b) = true) ->
  exists label v, fst (format_monthly_data w ticker tr)
                  = inr (series_dict ticker "monthly" [label] [v]) /\ is_nan v = true.
Proof.
  intros w ticker tr fr Hh He Hc Hnan.
  destruct (last_opt_some (rows fr) (frame_empty_rows fr He)) as [lb Hlb].
  exists (strftime_ym (bar_ts lb)), (py_round2 (pd_mean (map bar_close (rows fr)))).
  split.
  - unfold format_monthly_data. rewrite formatter_try_run. unfold format_monthly_body. run_py.
    rewrite Hh, He, close_col_run, (close_present _ Hc). cbn [fst]. now rewrite Hlb.
  - rewrite pd_mean_all_nan; [vm_compute; reflexivity|].
    intros x Hx. apply in_map_iff in Hx as (b & <- & Hb). now apply Hnan.
Qed.

(* ------------------------------------------------------------------ *)
(** ** The further properties at concrete inputs *)

Lemma get_info_answers_witness :
  get_info apple_info_src "msft" []
    = (inr (error_dict (exn_msg connection_error), 400), [CallInfo "MSFT"]) /\
  exists d, get_info apple_info_src "aapl" [] = (inr (d, 200), [CallInfo "AAPL"]) /\
            dict_get d "name" = Some (PStr "Apple Inc.") /\
            dict_get d "change" = Some (PStr "N/A").
Proof.
  split.
  - exact (proj1 get_info_answers apple_info_src "msft" [] connection_error eq_refl).
  - destruct (proj2 get_info_answers apple_info_src "aapl" [] apple_info eq_refl)
      as (d & E & _ & _ & F).
    exists d. split; [exact E|]. split.
    + exact (F "name" "longName" ltac:(simpl; tauto)).
    + exact (F "change" "regularMarketChange" ltac:(simpl; tauto)).
Defined.

Lemma intraday_prefers_yesterday_witness :
  fst (format_intraday_data monday_tuesday_world (mkDate 2025 3 11) "SPY" [])
  = inr (series_dict "SPY" "intraday" ["15:00"; "15:30"]
                                      [py_round2 41.25%float; py_round2 41.5%float]).
Proof.
  exact (intraday_prefers_yesterday monday_tuesday_world (mkDate 2025 3 11) "SPY" []
           monday_tuesday_frame eq_refl ltac:(simpl; tauto) ltac:(vm_compute; discriminate)).
Defined.

Lemma prev_day_is_day_before_witness :
  prev_day (mkDate 2024 3 1) = mkDate 2024 2 29 /\
  valid_date (mkDate 2024 2 29) /\
  date_ltb (mkDate 2024 2 29) (mkDate 2024 3 1) = true.
Proof.
  destruct (prev_day_is_day_before (mkDate 2024 3 1)
              ltac:(unfold valid_date; cbn [year month day]; change (days_in_month 2024 3) with 31; lia))
    as (V & L & _).
  split; [reflexivity|]. split; [exact V | exact L].
Defined.

Lemma decision_fetches_history_then_info_witness :
  get_decision module_globals empty_history_world "abc123" "spy" []
    = (inr (error_dict "No data available", 400), [CallInfo "SPY"; CallHistory "SPY" "5d" "1d"]) /\
  get_decision module_globals info_down_world "abc123" "spy" []
    = (inr (decision_dict "SPY" "HOLD"
              "Error during analysis: HTTPSConnectionPool(host='query2.finance.yahoo.com", 200),
       [CallInfo "SPY"; CallHistory "SPY" "5d" "1d"]).
Proof.
  split.
  - exact (proj1 decision_fetches_history_then_info module_globals empty_history_world "abc123"
             "spy" [] (mkFrame ohlcv []) demo_info ltac:(discriminate) eq_refl eq_refl eq_refl).
  - exact (proj2 decision_fetches_history_then_info module_globals info_down_world "abc123"
             "spy" [] daily_frame connection_error ltac:(discriminate) eq_refl eq_refl).
Defined.

Lemma decision_with_model_bound_witness :
  fst (get_decision ("genai" :: module_globals) demo_world "abc123" "spy" [])
  = inr (decision_dict "SPY" "SELL" "Weak earnings outlook", 200).
Proof.
  rewrite (decision_with_model_bound ("genai" :: module_globals) demo_world "abc123" "spy" []
             daily_frame demo_info (bar_at 2025 3 5 0 0 99.875%float) _
             (or_introl eq_refl) ltac:(discriminate) eq_refl eq_refl ltac:(simpl; tauto)
             eq_refl eq_refl).
  reflexivity.
Defined.

Lemma parse_reply_ignores_outer_whitespace_witness :
  parse_reply (String " "%char ("buy" ++ nl ++ "Momentum")) = ("BUY", "Momentum") /\
  parse_reply (("buy" ++ nl ++ "Momentum") ++ String newline EmptyString) = ("BUY", "Momentum").
Proof.
  split.
  - rewrite (proj1 (parse_reply_ignores_outer_whitespace " "%char ("buy" ++ nl ++ "Momentum")
                      eq_refl)).
    reflexivity.
  - rewrite (proj2 (parse_reply_ignores_outer_whitespace newline ("buy" ++ nl ++ "Momentum")
                      eq_refl)).
    reflexivity.
Defined.

Lemma monthly_all_nan_closes_give_nan_witness :
  exists label v, fst (format_monthly_data nan_world "SPY" [])
                  = inr (series_dict "SPY" "monthly" [label] [v]) /\ is_nan v = true.
Proof.
  exact (monthly_all_nan_closes_give_nan nan_world "SPY" [] nan_frame eq_refl eq_refl
           ltac:(simpl; tauto)
           ltac:(intros b Hb; simpl in Hb; destruct Hb as [<-|[<-|[]]]; reflexivity)).
Defined.
